(** * PriceTrek: tracker, rule evaluator, storage and notification fan-out

    A shallow embedding of the Go packages [config], [logger], [storage],
    [tracker] and [notifications] of makalin/pricetrek.  Prices are Go
    [float64] values and are modelled by Rocq's primitive binary64 floats, so
    that every comparison and every arithmetic operation rounds exactly as
    the Go code does.  Stateful code is written in a small state-and-error
    monad over the SQLite table, the logger output and the outside world. *)

From Stdlib Require Import ZArith List String Bool Lia QArith Sorted Permutation.
From Stdlib Require Import Floats.
Import ListNotations.

Local Open Scope string_scope.
Local Open Scope Z_scope.

(** ** Go errors *)

Module Go.

(** [errorString] is what [errors.New] and [fmt.Errorf] without a verb
    for the cause build; [wrapError] is [fmt.Errorf("msg: %w", err)]. *)
Inductive error : Type :=
| errorString (text : string)
| wrapError (msg : string) (err : error).

Definition Unwrap (e : error) : option error :=
  match e with
  | errorString _ => None
  | wrapError _ cause => Some cause
  end.

(** [err.Error()] *)
Fixpoint Error (e : error) : string :=
  match e with
  | errorString text => text
  | wrapError msg cause => msg ++ ": " ++ Error cause
  end.

(** A Go function returning [(A, error)]. *)
Inductive result (A : Type) : Type :=
| Ok (a : A)
| Err (e : error).
Arguments Ok {A} a.
Arguments Err {A} e.

Definition is_ok {A} (r : result A) : bool :=
  match r with Ok _ => true | Err _ => false end.

End Go.

(** ** Package config *)

Module config.

Record StorageConfig := {
  Driver : string;
  Path : string }.

(** [time.Duration] is a count of nanoseconds. *)
Definition Millisecond : Z := 1000000.
Definition Second : Z := 1000 * Millisecond.
Definition Minute : Z := 60 * Second.

Record RetryConfig := {
  Attempts : Z;
  BaseDelay : Z;
  MaxDelay : Z }.

Record HeadlessConfig := {
  Headless_Enabled : bool;
  WaitUntil : string }.

Record DefaultsConfig := {
  Defaults_Currency : string;
  Timezone : string;
  UserAgent : string;
  Retry : RetryConfig;
  HTTPTimeout : Z;
  CacheTTL : Z;
  Headless : HeadlessConfig }.

Record EmailConfig := {
  Email_Enabled : bool;
  From : string;
  To : list string }.

Record TelegramConfig := {
  Telegram_Enabled : bool;
  ChatID : string }.

Record SlackConfig := {
  Slack_Enabled : bool;
  Webhook : string }.

Record NtfyConfig := {
  Ntfy_Enabled : bool;
  Topic : string }.

Record NotificationsConfig := {
  Email : EmailConfig;
  Telegram : TelegramConfig;
  Slack : SlackConfig;
  Ntfy : NtfyConfig }.

Record RulesConfig := {
  Rules_PercentDrop : float;
  Rules_TargetPrice : option float }.

(** The pointer fields [*float64] are [option float]: [None] is [nil]. *)
Record ItemConfig := {
  ID : string;
  Name : string;
  URL : string;
  Provider : string;
  Selector : string;
  Currency : string;
  TargetPrice : option float;
  PercentDrop : option float;
  Schedule : string;
  Regex : string;
  Attr : string;
  Command : string }.

Record Config := {
  Storage : StorageConfig;
  Defaults : DefaultsConfig;
  Notifications : NotificationsConfig;
  Rules : RulesConfig;
  Items : list ItemConfig }.

Definition orString (s dflt : string) : string :=
  if String.eqb s "" then dflt else s.

Definition orZ (z dflt : Z) : Z :=
  if Z.eqb z 0 then dflt else z.

(** The "Set defaults" block of [Load], applied to the value that
    [yaml.Unmarshal] produced from the configuration file. *)
Definition Load (cfg : Config) : Config :=
  {| Storage :=
       {| Driver := orString (Driver (Storage cfg)) "sqlite";
          Path := orString (Path (Storage cfg)) "./data/trek.db" |};
     Defaults :=
       {| Defaults_Currency := orString (Defaults_Currency (Defaults cfg)) "USD";
          Timezone := orString (Timezone (Defaults cfg)) "UTC";
          UserAgent := orString (UserAgent (Defaults cfg))
                         "PriceTrek/0.1 (+https://github.com/makalin/pricetrek)";
          Retry :=
            {| Attempts := orZ (Attempts (Retry (Defaults cfg))) 3;
               BaseDelay := orZ (BaseDelay (Retry (Defaults cfg))) (800 * Millisecond);
               MaxDelay := orZ (MaxDelay (Retry (Defaults cfg))) (7 * Second) |};
          HTTPTimeout := orZ (HTTPTimeout (Defaults cfg)) (20 * Second);
          CacheTTL := orZ (CacheTTL (Defaults cfg)) (30 * Minute);
          Headless :=
            {| Headless_Enabled := Headless_Enabled (Headless (Defaults cfg));
               WaitUntil := orString (WaitUntil (Headless (Defaults cfg))) "networkidle" |} |};
     Notifications := Notifications cfg;
     Rules :=
       {| Rules_PercentDrop :=
            if PrimFloat.eqb (Rules_PercentDrop (Rules cfg)) 0
            then 8%float else Rules_PercentDrop (Rules cfg);
          Rules_TargetPrice := Rules_TargetPrice (Rules cfg) |};
     Items := Items cfg |}.

End config.

(** ** Package logger *)

Module logger.

Inductive Level := LevelDebug | LevelInfo | LevelError.

(** The values the tracker passes as key/value arguments. *)
Inductive Value :=
| StringValue (s : string)
| Float64Value (f : float)
| ErrorValue (e : Go.error).

Record Entry := {
  level : Level;
  msg : string;
  args : list (string * Value) }.

(** [New(verbose)]: the handler level is Debug when verbose, else Info. *)
Record Logger := { verbose : bool }.

Definition New (verbose : bool) : Logger := {| verbose := verbose |}.

Definition enabled (l : Logger) (lv : Level) : bool :=
  match lv with
  | LevelDebug => verbose l
  | LevelInfo | LevelError => true
  end.

End logger.

(** ** The SQLite table [prices] *)

Module sqlite.

(** One row of
    [prices(item_id TEXT, ts DATETIME, price REAL, currency TEXT, meta TEXT)];
    [meta] is the only nullable column. *)
Record Row := {
  item_id : string;
  ts : Z;
  price : float;
  currency : string;
  meta : option string }.

(** The handle [*sql.DB]: the rows in insertion (rowid) order, and the
    driver error with which every statement fails while the handle is
    unusable (closed, I/O error, cancelled context). *)
Record DB := {
  prices : list Row;
  fault : option Go.error }.

(** [WHERE item_id = ?] *)
Definition whereItem (itemID : string) (rows : list Row) : list Row :=
  filter (fun r => String.eqb (item_id r) itemID) rows.

(** [ORDER BY ts DESC]: rows with equal [ts] stay in rowid order. *)
Fixpoint insertDesc (r : Row) (sorted : list Row) : list Row :=
  match sorted with
  | [] => [r]
  | x :: rest =>
      if ts x <=? ts r then r :: sorted else x :: insertDesc r rest
  end.

Definition orderByTsDesc (rows : list Row) : list Row :=
  fold_right insertDesc [] rows.

(** [LIMIT ?]: a negative limit means no limit. *)
Definition limitRows (limit : Z) (rows : list Row) : list Row :=
  if limit <? 0 then rows else firstn (Z.to_nat limit) rows.

(** [SELECT ... FROM prices WHERE item_id = ? ORDER BY ts DESC LIMIT ?] *)
Definition selectPrices (itemID : string) (limit : Z) (rows : list Row) : list Row :=
  limitRows limit (orderByTsDesc (whereItem itemID rows)).

End sqlite.

(** ** The outside world, the program state and the monad of the code *)

Module runtime.

(** What the code reaches outside the process: the clock read by
    [time.Now()], and [encoding/json] on [map[string]interface{}].
    [MapSI] is the type of non-nil maps; a Go map value is an
    [option MapSI], [None] being the nil map. *)
Class Runtime : Type := {
  World : Type;
  MapSI : Type;
  time_Now : World -> Z * World;
  json_Marshal : MapSI -> Go.result string;
  json_Unmarshal : string -> Go.result (option MapSI) }.

Section Monad.
Context {RT : Runtime}.

Record State := {
  world : World;
  db : sqlite.DB;
  logs : list logger.Entry }.

(** A Go method returning [(A, error)] that may touch the state; the
    state changes made before an error is returned are kept. *)
Definition M (A : Type) : Type := State -> Go.result A * State.

Definition ret {A} (a : A) : M A := fun s => (Go.Ok a, s).

Definition bind {A B} (m : M A) (k : A -> M B) : M B :=
  fun s =>
    match m s with
    | (Go.Ok a, s') => k a s'
    | (Go.Err e, s') => (Go.Err e, s')
    end.

Definition lift {A} (r : Go.result A) : M A := fun s => (r, s).

(** [if err != nil { return fmt.Errorf("msg: %w", err) }] *)
Definition wrapf {A} (message : string) (m : M A) : M A :=
  fun s =>
    match m s with
    | (Go.Ok a, s') => (Go.Ok a, s')
    | (Go.Err e, s') => (Go.Err (Go.wrapError message e), s')
    end.

Definition Now : M Z :=
  fun s =>
    let (t, w) := time_Now (world s) in
    (Go.Ok t, {| world := w; db := db s; logs := logs s |}).

(** [db.ExecContext(ctx, "INSERT INTO prices ...", ...)].  SQLite binds a
    NaN as NULL, which the column [price REAL NOT NULL] refuses. *)
Definition ExecInsert (r : sqlite.Row) : M unit :=
  fun s =>
    match sqlite.fault (db s) with
    | Some e => (Go.Err e, s)
    | None =>
        if PrimFloat.is_nan (sqlite.price r)
        then (Go.Err (Go.errorString "NOT NULL constraint failed: prices.price"), s)
        else
          (Go.Ok tt,
           {| world := world s;
              db := {| sqlite.prices := sqlite.prices (db s) ++ [r];
                       sqlite.fault := None |};
              logs := logs s |})
    end.

(** [db.QueryContext(ctx, "SELECT ...", ...)] *)
Definition Query (select : list sqlite.Row -> list sqlite.Row) : M (list sqlite.Row) :=
  fun s =>
    match sqlite.fault (db s) with
    | Some e => (Go.Err e, s)
    | None => (Go.Ok (select (sqlite.prices (db s))), s)
    end.

(** A call of [l.Debug], [l.Info] or [l.Error]. *)
Definition Log (l : logger.Logger) (lv : logger.Level) (message : string)
           (kv : list (string * logger.Value)) : M unit :=
  fun s =>
    if logger.enabled l lv
    then (Go.Ok tt,
          {| world := world s; db := db s;
             logs := logs s ++ [ {| logger.level := lv;
                                    logger.msg := message;
                                    logger.args := kv |} ] |})
    else (Go.Ok tt, s).

(** The state after [time.Now()], a fetch, or a logger call. *)
Definition setWorld (w : World) (s : State) : State :=
  {| world := w; db := db s; logs := logs s |}.

Definition logged (l : logger.Logger) (lv : logger.Level) (message : string)
           (kv : list (string * logger.Value)) (s : State) : State :=
  snd (Log l lv message kv s).

(** Loops over results that stop at the first error. *)
Fixpoint mapResult {A B} (f : A -> Go.result B) (l : list A) : Go.result (list B) :=
  match l with
  | [] => Go.Ok []
  | a :: rest =>
      match f a with
      | Go.Err e => Go.Err e
      | Go.Ok b =>
          match mapResult f rest with
          | Go.Err e => Go.Err e
          | Go.Ok bs => Go.Ok (b :: bs)
          end
      end
  end.

End Monad.

Declare Scope go_scope.
Delimit Scope go_scope with go.
Notation "x <- c1 ;; c2" := (bind c1 (fun x => c2))
  (at level 61, c1 at next level, right associativity) : go_scope.
Notation "c1 ;;; c2" := (bind c1 (fun _ => c2))
  (at level 61, right associativity) : go_scope.

End runtime.

Import runtime.
Local Open Scope go_scope.

(** ** Package storage *)

Module storage.

Section Storage.
Context {RT : Runtime}.

Record PriceSample := {
  ItemID : string;
  Time : Z;
  Price : float;
  Currency : string;
  Meta : option MapSI }.

Definition SavePrice (itemID : string) (price : float) (currency : string)
           (meta : option MapSI) : M unit :=
  metaJSON <- match meta with
              | Some m => wrapf "failed to marshal meta" (lift (json_Marshal m))
              | None => ret ""
              end ;;
  now <- Now ;;
  wrapf "failed to save price"
    (ExecInsert {| sqlite.item_id := itemID;
                   sqlite.ts := now;
                   sqlite.price := price;
                   sqlite.currency := currency;
                   sqlite.meta := Some metaJSON |}) ;;;
  ret tt.

(** [rows.Scan] followed by the decoding of the [meta] column: the
    column is decoded only when it is not NULL and not empty. *)
Definition scanRow (r : sqlite.Row) : Go.result PriceSample :=
  let sample m := {| ItemID := sqlite.item_id r;
                     Time := sqlite.ts r;
                     Price := sqlite.price r;
                     Currency := sqlite.currency r;
                     Meta := m |} in
  match sqlite.meta r with
  | Some text =>
      if String.eqb text "" then Go.Ok (sample None)
      else match json_Unmarshal text with
           | Go.Err e => Go.Err (Go.wrapError "failed to unmarshal meta" e)
           | Go.Ok m => Go.Ok (sample m)
           end
  | None => Go.Ok (sample None)
  end.

Definition GetPrices (itemID : string) (limit : Z) : M (list PriceSample) :=
  rows <- wrapf "failed to query prices" (Query (sqlite.selectPrices itemID limit)) ;;
  lift (mapResult scanRow rows).

(** [QueryRowContext(...).Scan(...)]: [sql.ErrNoRows] gives [(nil, nil)]. *)
Definition GetLatestPrice (itemID : string) : M (option PriceSample) :=
  rows <- wrapf "failed to get latest price" (Query (sqlite.selectPrices itemID 1)) ;;
  match rows with
  | [] => ret None
  | r :: _ =>
      sample <- lift (scanRow r) ;;
      ret (Some sample)
  end.


(** The text [SavePrice] puts in the [meta] column. *)
Definition metaText (meta : option MapSI) (text : string) : Prop :=
  match meta with
  | None => text = ""
  | Some m => json_Marshal m = Go.Ok text
  end.

Definition savedRow (itemID : string) (price : float) (currency : string)
           (text : string) (s : State) : sqlite.Row :=
  {| sqlite.item_id := itemID;
     sqlite.ts := fst (time_Now (world s));
     sqlite.price := price;
     sqlite.currency := currency;
     sqlite.meta := Some text |}.

Definition afterSave (r : sqlite.Row) (s : State) : State :=
  {| world := snd (time_Now (world s));
     db := {| sqlite.prices := sqlite.prices (db s) ++ [r]; sqlite.fault := None |};
     logs := logs s |}.

End Storage.

End storage.

(** ** Package providers *)

Module providers.

Section Providers.
Context {RT : Runtime}.

(** Modelled from the spec: the type declarations of package providers
    are not among the sources.  The fields are the ones [TrackItem]
    reads ([Price], [Currency], [Meta]) and the in-stock flag of the
    documented provider interface. *)
Record PriceSample := {
  Price : float;
  Currency : string;
  InStock : bool;
  Meta : option MapSI }.

End Providers.

(** The two entry points the tracker calls: [GetProvider(kind, defaults)]
    and the interface method [Fetch(ctx, item)], which talks to the
    network or to a subprocess and therefore reads and changes the
    world. *)
Class Registry {RT : Runtime} : Type := {
  Provider : Type;
  GetProvider : string -> config.DefaultsConfig -> Go.result Provider;
  Fetch : Provider -> config.ItemConfig -> World -> Go.result PriceSample * World }.

End providers.

(** ** Package tracker *)

Module tracker.

Section Tracker.
Context {RT : Runtime} {PR : providers.Registry}.

(** The [storage] field of the Go struct is the [db] of the state. *)
Record Tracker := {
  config : config.Config;
  logger : logger.Logger }.

Definition New (cfg : config.Config) (log : logger.Logger) : Tracker :=
  {| config := cfg; logger := log |}.

Definition fetch (p : providers.Provider) (item : config.ItemConfig)
  : M providers.PriceSample :=
  fun s =>
    let (r, w) := providers.Fetch p item (world s) in
    (r, {| world := w; db := db s; logs := logs s |}).

Definition TrackItem (t : Tracker) (item : config.ItemConfig) : M unit :=
  Log (logger t) logger.LevelDebug "Tracking item"
    [("id", logger.StringValue (config.ID item));
     ("name", logger.StringValue (config.Name item))] ;;;
  provider <- wrapf "failed to get provider"
                (lift (providers.GetProvider (config.Provider item)
                         (config.Defaults (config t)))) ;;
  sample <- wrapf "failed to fetch price" (fetch provider item) ;;
  wrapf "failed to save price"
    (storage.SavePrice (config.ID item) (providers.Price sample)
       (providers.Currency sample) (providers.Meta sample)) ;;;
  Log (logger t) logger.LevelInfo "Price tracked"
    [("item", logger.StringValue (config.ID item));
     ("price", logger.Float64Value (providers.Price sample));
     ("currency", logger.StringValue (providers.Currency sample))] ;;;
  ret tt.

(** [if err := m; err != nil { handler(err); continue }] inside a loop
    body: the error is consumed. *)
Definition orElse (m : M unit) (handler : Go.error -> M unit) : M unit :=
  fun s =>
    match m s with
    | (Go.Ok _, s') => (Go.Ok tt, s')
    | (Go.Err e, s') => handler e s'
    end.

Fixpoint forEach (items : list config.ItemConfig)
         (body : config.ItemConfig -> M unit) : M unit :=
  match items with
  | [] => ret tt
  | item :: rest => body item ;;; forEach rest body
  end.

Definition TrackAll (t : Tracker) : M unit :=
  Log (logger t) logger.LevelInfo "Starting price tracking for all items" [] ;;;
  forEach (config.Items (config t))
    (fun item =>
       orElse (TrackItem t item)
         (fun err =>
            Log (logger t) logger.LevelError "Failed to track item"
              [("item", logger.StringValue (config.ID item));
               ("error", logger.ErrorValue err)])) ;;;
  Log (logger t) logger.LevelInfo "Price tracking completed" [] ;;;
  ret tt.

(** [((previousPrice - latest.Price) / previousPrice) * 100] *)
Definition dropPercent (previousPrice latestPrice : float) : float :=
  (((previousPrice - latestPrice) / previousPrice) * 100)%float.

(** [item.PercentDrop], or [&t.config.Rules.PercentDrop] when nil. *)
Definition effectivePercentDrop (t : Tracker) (item : config.ItemConfig) : float :=
  match config.PercentDrop item with
  | Some p => p
  | None => config.Rules_PercentDrop (config.Rules (config t))
  end.

Definition checkItemAlerts (t : Tracker) (item : config.ItemConfig) : M unit :=
  latest <- wrapf "failed to get latest price"
              (storage.GetLatestPrice (config.ID item)) ;;
  match latest with
  | None => ret tt
  | Some latest =>
      prices <- wrapf "failed to get price history"
                  (storage.GetPrices (config.ID item) 5) ;;
      match prices with
      | [] | [_] => ret tt
      | _ :: previous :: _ =>
          match config.TargetPrice item with
          | Some target =>
              if (storage.Price latest <=? target)%float
              then Log (logger t) logger.LevelInfo "Target price reached"
                     [("item", logger.StringValue (config.ID item));
                      ("current", logger.Float64Value (storage.Price latest));
                      ("target", logger.Float64Value target)]
              else ret tt
          | None => ret tt
          end ;;;
          let percentDrop := effectivePercentDrop t item in
          if (0 <? percentDrop)%float
          then
            let previousPrice := storage.Price previous in
            let drop := dropPercent previousPrice (storage.Price latest) in
            if (percentDrop <=? drop)%float
            then Log (logger t) logger.LevelInfo "Price drop alert"
                   [("item", logger.StringValue (config.ID item));
                    ("current", logger.Float64Value (storage.Price latest));
                    ("previous", logger.Float64Value previousPrice);
                    ("drop_percent", logger.Float64Value drop)]
            else ret tt
          else ret tt
      end
  end.

Definition CheckAlerts (t : Tracker) : M unit :=
  Log (logger t) logger.LevelInfo "Checking price alerts" [] ;;;
  forEach (config.Items (config t))
    (fun item =>
       orElse (checkItemAlerts t item)
         (fun err =>
            Log (logger t) logger.LevelError "Failed to check alerts for item"
              [("item", logger.StringValue (config.ID item));
               ("error", logger.ErrorValue err)])) ;;;
  ret tt.

(** The entries the two rules of [checkItemAlerts] log for the newest
    sample [latest] and the one before it. *)
Definition targetEntries (item : config.ItemConfig) (latest : storage.PriceSample)
  : list logger.Entry :=
  match config.TargetPrice item with
  | Some target =>
      if (storage.Price latest <=? target)%float
      then [ {| logger.level := logger.LevelInfo;
                logger.msg := "Target price reached";
                logger.args :=
                  [("item", logger.StringValue (config.ID item));
                   ("current", logger.Float64Value (storage.Price latest));
                   ("target", logger.Float64Value target)] |} ]
      else []
  | None => []
  end.

Definition dropEntries (t : Tracker) (item : config.ItemConfig)
           (latest previous : storage.PriceSample) : list logger.Entry :=
  if (0 <? effectivePercentDrop t item)%float
  then
    if (effectivePercentDrop t item
        <=? dropPercent (storage.Price previous) (storage.Price latest))%float
    then [ {| logger.level := logger.LevelInfo;
              logger.msg := "Price drop alert";
              logger.args :=
                [("item", logger.StringValue (config.ID item));
                 ("current", logger.Float64Value (storage.Price latest));
                 ("previous", logger.Float64Value (storage.Price previous));
                 ("drop_percent",
                  logger.Float64Value
                    (dropPercent (storage.Price previous) (storage.Price latest)))] |} ]
    else []
  else [].

Definition withEntries (new : list logger.Entry) (s : State) : State :=
  {| world := world s; db := db s; logs := logs s ++ new |}.

(** The states after the two logger calls of [TrackItem]. *)
Definition trackingItem (t : Tracker) (item : config.ItemConfig) (s : State) : State :=
  logged (logger t) logger.LevelDebug "Tracking item"
    [("id", logger.StringValue (config.ID item));
     ("name", logger.StringValue (config.Name item))] s.

Definition priceTracked (t : Tracker) (item : config.ItemConfig)
           (sample : providers.PriceSample) (s : State) : State :=
  logged (logger t) logger.LevelInfo "Price tracked"
    [("item", logger.StringValue (config.ID item));
     ("price", logger.Float64Value (providers.Price sample));
     ("currency", logger.StringValue (providers.Currency sample))] s.

End Tracker.

End tracker.

(** ** Package notifications *)

Module notifications.

(** The four implementations of the interface [Notifier]. *)
Inductive Notifier :=
| EmailNotifier (from : string) (to : list string)
| TelegramNotifier (chatID : string)
| SlackNotifier (webhook : string)
| NtfyNotifier (topic : string).

Record NotificationManager := { notifiers : list Notifier }.

Definition New (cfg : config.Config) : NotificationManager :=
  let n := config.Notifications cfg in
  {| notifiers :=
       (if config.Email_Enabled (config.Email n)
        then [EmailNotifier (config.From (config.Email n)) (config.To (config.Email n))]
        else [])
       ++ (if config.Telegram_Enabled (config.Telegram n)
           then [TelegramNotifier (config.ChatID (config.Telegram n))] else [])
       ++ (if config.Slack_Enabled (config.Slack n)
           then [SlackNotifier (config.Webhook (config.Slack n))] else [])
       ++ (if config.Ntfy_Enabled (config.Ntfy n)
           then [NtfyNotifier (config.Topic (config.Ntfy n))] else []) |}.

(** The interface method [Notifier.Send(ctx, message)]: what a channel
    answers depends on its implementation and on the network. *)
Class Transport : Type := {
  Net : Type;
  deliver : Notifier -> string -> Net -> option Go.error * Net }.

(** The implementations next to [NotificationManager]: every channel
    answers that it is not implemented. *)
Definition notImplemented (n : Notifier) : Go.error :=
  match n with
  | EmailNotifier _ _ => Go.errorString "email notification not implemented yet"
  | TelegramNotifier _ => Go.errorString "telegram notification not implemented yet"
  | SlackNotifier _ => Go.errorString "slack notification not implemented yet"
  | NtfyNotifier _ => Go.errorString "ntfy notification not implemented yet"
  end.

Section Manager.
Context {TR : Transport}.

(** [attempts] records every call of the interface method, in order;
    [stderr] is what was printed to [os.Stderr]. *)
Record Outbox := {
  net : Net;
  attempts : list (Notifier * string);
  stderr : list string }.

Definition Notifier_Send (n : Notifier) (message : string)
  : Outbox -> option Go.error * Outbox :=
  fun o =>
    let (r, w) := deliver n message (net o) in
    (r, {| net := w;
           attempts := attempts o ++ [(n, message)];
           stderr := stderr o |}).

Definition Fprintf_Stderr (line : string) (o : Outbox) : Outbox :=
  {| net := net o; attempts := attempts o; stderr := stderr o ++ [line] |}.

Definition newline : string := String (Ascii.ascii_of_nat 10) EmptyString.

Fixpoint sendEach (ns : list Notifier) (message : string) (o : Outbox) : Outbox :=
  match ns with
  | [] => o
  | notifier :: rest =>
      match Notifier_Send notifier message o with
      | (Some err, o') =>
          sendEach rest message
            (Fprintf_Stderr
               ("Failed to send notification: " ++ Go.Error err ++ newline) o')
      | (None, o') => sendEach rest message o'
      end
  end.

Definition Send (nm : NotificationManager) (message : string)
  : Outbox -> option Go.error * Outbox :=
  fun o => (None, sendEach (notifiers nm) message o).

End Manager.

End notifications.

(** ** The retry delay of the resilience wrapper *)

Module retry.

(** Modelled from the spec: the resilience wrapper around a provider's
    fetch is not among the sources.  The delay before try [n] is
    [min(maxDelay, baseDelay * 2^(n-2))] plus the jitter drawn for that
    try, over the retry settings of [config.RetryConfig] (durations in
    nanoseconds). *)
Definition backoff (r : config.RetryConfig) (n : Z) : Z :=
  Z.min (config.MaxDelay r) (config.BaseDelay r * 2 ^ (n - 2)).

Definition delay (r : config.RetryConfig) (n : Z) (jitter : Z) : Z :=
  backoff r n + jitter.

(** Modelled from the spec: [uniformRandom(0, baseDelay)] draws every
    duration of [0 .. baseDelay] with the same probability. *)
Definition jitters (r : config.RetryConfig) : list Z :=
  map Z.of_nat (seq 0 (S (Z.to_nat (config.BaseDelay r)))).

Definition total (l : list Z) : Z := fold_right Z.add 0 l.

(** The mean of the delay before try [n] over the draws of the jitter. *)
Definition expectedDelay (r : config.RetryConfig) (n : Z) : Q :=
  Qmake (total (map (delay r n) (jitters r)))
        (Pos.of_nat (List.length (jitters r))).

End retry.

(** ** What the claims speak about *)

Module alerts.

Section Alerts.
Context {RT : Runtime}.

(** The entries a call appended to the logger output. *)
Definition emitted (before after : State) : list logger.Entry :=
  skipn (List.length (logs before)) (logs after).

Definition named (message : string) (e : logger.Entry) : bool :=
  String.eqb (logger.msg e) message.

(** An alert fires when the evaluator logs it. *)
Definition fires (message : string) (before after : State) : bool :=
  existsb (named message) (emitted before after).

Definition target_reached : string := "Target price reached".
Definition percent_drop : string := "Price drop alert".

Definition failedToTrack (e : logger.Entry) : bool :=
  match logger.level e with
  | logger.LevelError => String.eqb (logger.msg e) "Failed to track item"
  | _ => false
  end.

Definition countFailedToTrack (l : list logger.Entry) : nat :=
  List.length (filter failedToTrack l).

End Alerts.

End alerts.

Module invariant.

(** The invariant of the data model on one stored sample of [item]:
    a strictly positive price and a three-letter currency code that is
    the item's. *)
Definition validSample (item : config.ItemConfig) (price : float)
           (currency : string) : bool :=
  (0 <? price)%float
  && Nat.eqb (String.length currency) 3
  && String.eqb currency (config.Currency item).

Definition validRow (items : list config.ItemConfig) (r : sqlite.Row) : Prop :=
  exists item,
    In item items
    /\ config.ID item = sqlite.item_id r
    /\ validSample item (sqlite.price r) (sqlite.currency r) = true.

Section Operations.
Context {RT : Runtime} {PR : providers.Registry}.

(** The tracking operations of a run. *)
Inductive Op :=
| OpTrackItem (item : config.ItemConfig)
| OpTrackAll.

Definition runOp (t : tracker.Tracker) (s : State) (op : Op) : State :=
  match op with
  | OpTrackItem item => snd (tracker.TrackItem t item s)
  | OpTrackAll => snd (tracker.TrackAll t s)
  end.

Definition runOps (t : tracker.Tracker) (ops : list Op) (s : State) : State :=
  fold_left (runOp t) ops s.

Definition itemsOf (t : tracker.Tracker) (ops : list Op) : list config.ItemConfig :=
  flat_map (fun op => match op with
                      | OpTrackItem item => [item]
                      | OpTrackAll => config.Items (tracker.config t)
                      end) ops.

(** The number of items of a [TrackAll] loop whose [TrackItem] returned
    an error, the state being threaded as the loop threads it. *)
Fixpoint failures (t : tracker.Tracker) (items : list config.ItemConfig)
         (s : State) : nat :=
  match items with
  | [] => O
  | item :: rest =>
      match tracker.TrackItem t item s with
      | (Go.Ok _, s') => failures t rest s'
      | (Go.Err err, s') =>
          S (failures t rest
               (snd (Log (tracker.logger t) logger.LevelError "Failed to track item"
                       [("item", logger.StringValue (config.ID item));
                        ("error", logger.ErrorValue err)] s')))
      end
  end.

Definition failedItems (t : tracker.Tracker) (s : State) : nat :=
  failures t (config.Items (tracker.config t))
    (snd (Log (tracker.logger t) logger.LevelInfo
            "Starting price tracking for all items" [] s)).

End Operations.

End invariant.

(** ** Sentences of the specification that the code is compared with *)

Module spec.

Section Sentences.
Context {RT : Runtime} {PR : providers.Registry}.

(** "Skip the comparison (no alert, no error) if [previous.price == 0]
    or the two samples' currencies differ." *)
Definition guardsComparison (t : tracker.Tracker) (item : config.ItemConfig)
           (s : State) : Prop :=
  forall cur previous rest,
    fst (storage.GetPrices (config.ID item) 5 s) = Go.Ok (cur :: previous :: rest) ->
    (storage.Price previous =? 0)%float = true
    \/ storage.Currency previous <> storage.Currency cur ->
    fst (tracker.checkItemAlerts t item s) = Go.Ok tt
    /\ alerts.fires alerts.percent_drop s (snd (tracker.checkItemAlerts t item s))
       = false.


(** "Final status aggregates the count of failures": the count can be
    read off the value [TrackAll] returns. *)
Definition statusReportsFailures : Prop :=
  exists report : Go.result unit -> nat,
    forall (t : tracker.Tracker) (s : State),
      report (fst (tracker.TrackAll t s)) = invariant.failedItems t s.

(** "The percent-drop alert fires exactly when [drop] is greater than
    or equal to the effective threshold", for an item with at least
    two samples. *)
Definition firesExactlyAtThreshold (t : tracker.Tracker) (item : config.ItemConfig)
           (s : State) : Prop :=
  forall cur previous rest,
    fst (storage.GetPrices (config.ID item) 5 s) = Go.Ok (cur :: previous :: rest) ->
    alerts.fires alerts.percent_drop s (snd (tracker.checkItemAlerts t item s)) = true
    <-> (tracker.effectivePercentDrop t item
         <=? tracker.dropPercent (storage.Price previous) (storage.Price cur))%float
        = true.

(** "[target_reached] only needs the current sample": it fires whenever
    the newest sample's price is at most the target. *)
Definition targetNeedsOnlyCurrent (t : tracker.Tracker) (item : config.ItemConfig)
           (s : State) : Prop :=
  forall cur rest target,
    fst (storage.GetPrices (config.ID item) 5 s) = Go.Ok (cur :: rest) ->
    config.TargetPrice item = Some target ->
    (storage.Price cur <=? target)%float = true ->
    alerts.fires alerts.target_reached s (snd (tracker.checkItemAlerts t item s))
    = true.

(** "Every PriceSample has a positive price and a three-letter currency
    code consistent with its TrackedItem at write time." *)
Definition writesOnlyValid (t : tracker.Tracker) (item : config.ItemConfig)
           (s : State) : Prop :=
  forall s1 r,
    tracker.TrackItem t item s = (Go.Ok tt, s1) ->
    In r (sqlite.prices (db s1)) ->
    In r (sqlite.prices (db s)) \/ invariant.validRow [item] r.

End Sentences.

End spec.

(** ** A simulated world for the examples *)

Module sim.

(** What a product page shows at the moment. *)
Record Page := {
  shown_price : float;
  shown_currency : string;
  shown_in_stock : bool;
  shown_meta : option string }.

(** The clock and the pages by URL. *)
Record Web := {
  clock : Z;
  pages : list (string * Page) }.

(** A map is held as its JSON text; reading the clock advances it. *)
#[global] Instance RT : Runtime := {|
  World := Web;
  MapSI := string;
  time_Now := fun w => (clock w, {| clock := clock w + 1; pages := pages w |});
  json_Marshal := fun m =>
    if String.eqb m "" then Go.Err (Go.errorString "json: unsupported value")
    else Go.Ok m;
  json_Unmarshal := fun text => Go.Ok (Some text) |}.

Fixpoint pageAt (url : string) (l : list (string * Page)) : option Page :=
  match l with
  | [] => None
  | (u, p) :: rest => if String.eqb u url then Some p else pageAt url rest
  end.

Definition sampleOf (p : Page) : providers.PriceSample :=
  {| providers.Price := shown_price p;
     providers.Currency := shown_currency p;
     providers.InStock := shown_in_stock p;
     providers.Meta := shown_meta p |}.

Definition getProvider (kind : string) (_ : config.DefaultsConfig) : Go.result string :=
  if String.eqb kind "generic" then Go.Ok kind
  else Go.Err (Go.errorString "unknown provider").

(** A provider that returns what the page shows. *)
#[global] Instance PR : providers.Registry := {|
  providers.Provider := string;
  providers.GetProvider := getProvider;
  providers.Fetch := fun _ item w =>
    match pageAt (config.URL item) (pages w) with
    | Some p => (Go.Ok (sampleOf p), w)
    | None => (Go.Err (Go.errorString "unexpected status 404"), w)
    end |}.

(** A provider that rejects a page whose price or currency does not fit
    the item. *)
Definition Checked : providers.Registry := {|
  providers.Provider := string;
  providers.GetProvider := getProvider;
  providers.Fetch := fun _ item w =>
    match pageAt (config.URL item) (pages w) with
    | Some p =>
        if invariant.validSample item (shown_price p) (shown_currency p)
        then (Go.Ok (sampleOf p), w)
        else (Go.Err (Go.errorString "implausible sample"), w)
    | None => (Go.Err (Go.errorString "unexpected status 404"), w)
    end |}.

Definition item (id url : string) (target drop : option float) : config.ItemConfig :=
  {| config.ID := id; config.Name := id; config.URL := url;
     config.Provider := "generic"; config.Selector := ".price";
     config.Currency := "USD"; config.TargetPrice := target;
     config.PercentDrop := drop; config.Schedule := "";
     config.Regex := ""; config.Attr := ""; config.Command := "" |}.

(** The configuration [Load] makes of an empty file, with [items]. *)
Definition emptyConfig : config.Config :=
  {| config.Storage := {| config.Driver := ""; config.Path := "" |};
     config.Defaults :=
       {| config.Defaults_Currency := ""; config.Timezone := "";
          config.UserAgent := "";
          config.Retry := {| config.Attempts := 0; config.BaseDelay := 0;
                             config.MaxDelay := 0 |};
          config.HTTPTimeout := 0; config.CacheTTL := 0;
          config.Headless := {| config.Headless_Enabled := false;
                                config.WaitUntil := "" |} |};
     config.Notifications :=
       {| config.Email := {| config.Email_Enabled := false; config.From := "";
                             config.To := [] |};
          config.Telegram := {| config.Telegram_Enabled := false; config.ChatID := "" |};
          config.Slack := {| config.Slack_Enabled := false; config.Webhook := "" |};
          config.Ntfy := {| config.Ntfy_Enabled := false; config.Topic := "" |} |};
     config.Rules := {| config.Rules_PercentDrop := 0%float;
                        config.Rules_TargetPrice := None |};
     config.Items := [] |}.

Definition configOf (items : list config.ItemConfig) : config.Config :=
  let c := config.Load emptyConfig in
  {| config.Storage := config.Storage c; config.Defaults := config.Defaults c;
     config.Notifications := config.Notifications c; config.Rules := config.Rules c;
     config.Items := items |}.

Definition trackerOf (items : list config.ItemConfig) : tracker.Tracker :=
  tracker.New (configOf items) (logger.New false).

Definition row (id : string) (t : Z) (p : float) (cur : string) : sqlite.Row :=
  {| sqlite.item_id := id; sqlite.ts := t; sqlite.price := p;
     sqlite.currency := cur; sqlite.meta := Some "" |}.

Definition state (now : Z) (web : list (string * Page)) (rows : list sqlite.Row) : State :=
  {| world := {| clock := now; pages := web |};
     db := {| sqlite.prices := rows; sqlite.fault := None |};
     logs := [] |}.

Definition shows (p : float) (cur : string) : Page :=
  {| shown_price := p; shown_currency := cur; shown_in_stock := true;
     shown_meta := None |}.

Definition sample (id : string) (t : Z) (p : float) (cur : string) : storage.PriceSample :=
  {| storage.ItemID := id; storage.Time := t; storage.Price := p;
     storage.Currency := cur; storage.Meta := None |}.

(** ** The inputs of the examples *)

(** A console watched at [shop/ps5], with a target price of 50. *)
Definition ps5 : config.ItemConfig := item "ps5" "shop/ps5" (Some 50%float) None.

(** The same listing with [percent_drop: 0] in its configuration. *)
Definition ps5_drop0 : config.ItemConfig :=
  item "ps5" "shop/ps5" None (Some 0%float).

Definition tv : config.ItemConfig := item "tv" "shop/tv" None None.

(** A listing whose page does not exist. *)
Definition gone : config.ItemConfig := item "gone" "shop/gone" None None.

(** One sample of 50, the target price, and nothing before it. *)
Definition single : State := state 10 [] [row "ps5" 1 50 "USD"].

(** 100 USD followed by 91 EUR. *)
Definition mixed : State := state 10 [] [row "ps5" 1 100 "USD"; row "ps5" 2 91 "EUR"].

(** 100 followed by 91, and 100 followed by 93, in one currency. *)
Definition drop9 : State := state 10 [] [row "ps5" 1 100 "USD"; row "ps5" 2 91 "USD"].
Definition drop7 : State := state 10 [] [row "ps5" 1 100 "USD"; row "ps5" 2 93 "USD"].

(** Twice the same price. *)
Definition flat : State := state 10 [] [row "ps5" 1 100 "USD"; row "ps5" 2 100 "USD"].

(** A stored 100, and a page that now shows 50. *)
Definition sale : State :=
  state 10 [("shop/ps5", shows 50 "USD")] [row "ps5" 1 100 "USD"].

(** Two pages that answer, one that does not. *)
Definition shop : State :=
  state 10 [("shop/ps5", shows 50 "USD"); ("shop/tv", shows 300 "USD")] [].

(** A page that shows a price of 0 in another currency than the item's. *)
Definition soldOut : State := state 10 [("shop/ps5", shows 0 "EUR")] [].

Definition written : sqlite.Row :=
  {| sqlite.item_id := "ps5"; sqlite.ts := 10; sqlite.price := 50;
     sqlite.currency := "USD"; sqlite.meta := Some "" |}.

(** A notification setup with two channels enabled. *)
Definition twoChannels : notifications.NotificationManager :=
  {| notifications.notifiers :=
       [notifications.TelegramNotifier "42"; notifications.NtfyNotifier "prices"] |}.

(** The channels as they are implemented next to the manager. *)
#[global] Instance Stubs : notifications.Transport := {|
  notifications.Net := unit;
  notifications.deliver := fun n _ w => (Some (notifications.notImplemented n), w) |}.

Definition emptyOutbox : notifications.Outbox :=
  {| notifications.net := tt; notifications.attempts := [];
     notifications.stderr := [] |}.

Definition fewNanoseconds : config.RetryConfig :=
  {| config.Attempts := 3; config.BaseDelay := 2; config.MaxDelay := 7 |}.

End sim.

(** ** Package storage: the table [items] *)

Module items.

(** [storage.Item]; the pointer fields are [option float]. *)
Record Item := {
  ID : string;
  Name : string;
  URL : string;
  Provider : string;
  Selector : string;
  Currency : string;
  TargetPrice : option float;
  PercentDrop : option float;
  Schedule : string;
  Regex : string;
  Attr : string;
  Command : string }.

(** What reaches a nullable [REAL] column: a nil pointer is NULL, and so
    is a NaN, as for [ExecInsert]. *)
Definition bindReal (p : option float) : option float :=
  match p with
  | Some f => if PrimFloat.is_nan f then None else Some f
  | None => None
  end.

(** The row that [INSERT OR REPLACE INTO items] writes for [item], as
    [GetItem] and [GetItems] scan it back. *)
Definition stored (item : Item) : Item :=
  {| ID := ID item; Name := Name item; URL := URL item;
     Provider := Provider item; Selector := Selector item;
     Currency := Currency item;
     TargetPrice := bindReal (TargetPrice item);
     PercentDrop := bindReal (PercentDrop item);
     Schedule := Schedule item; Regex := Regex item; Attr := Attr item;
     Command := Command item |}.

Definition hasID (itemID : string) (x : Item) : bool := String.eqb (ID x) itemID.



Section Items.
Context {RT : Runtime}.

(** The database with both tables: [table] holds the rows of [items] in
    rowid order, [session] the rest of the state ([prices], the handle's
    fault, the logger output, the world). *)
Record Store := {
  table : list Item;
  session : State }.

Definition Task (A : Type) : Type := Store -> Go.result A * Store.

(** A method that touches only the session. *)
Definition onSession {A} (m : M A) : Task A :=
  fun st =>
    let (r, s) := m (session st) in
    (r, {| table := table st; session := s |}).

Definition handleFault (st : Store) : option Go.error :=
  sqlite.fault (db (session st)).

(** [id] is the primary key: [INSERT OR REPLACE] deletes the row of the
    same id, if any, and inserts the new one. *)
Definition SaveItem (item : Item) : Task unit :=
  fun st =>
    match handleFault st with
    | Some e => (Go.Err (Go.wrapError "failed to save item" e), st)
    | None =>
        (Go.Ok tt,
         {| table := filter (fun x => negb (hasID (ID item) x)) (table st)
                     ++ [stored item];
            session := session st |})
    end.

(** [QueryRowContext(...).Scan(...)]: [sql.ErrNoRows] gives [(nil, nil)]. *)
Definition GetItem (itemID : string) : Task (option Item) :=
  fun st =>
    match handleFault st with
    | Some e => (Go.Err (Go.wrapError "failed to get item" e), st)
    | None => (Go.Ok (find (hasID itemID) (table st)), st)
    end.


(** The two [DELETE] statements run on the same handle, one after the
    other. *)
Definition DeleteItem (itemID : string) : Task unit :=
  fun st =>
    match handleFault st with
    | Some e => (Go.Err (Go.wrapError "failed to delete item" e), st)
    | None =>
        (Go.Ok tt,
         {| table := filter (fun x => negb (hasID itemID x)) (table st);
            session :=
              {| world := world (session st);
                 db := {| sqlite.prices :=
                            filter (fun r => negb (String.eqb (sqlite.item_id r) itemID))
                              (sqlite.prices (db (session st)));
                          sqlite.fault := None |};
                 logs := logs (session st) |} |})
    end.

End Items.

End items.

(** ** Package cli *)

Module cli.

(** The conversion written out in [trackOnce]. *)
Definition toItemConfig (item : items.Item) : config.ItemConfig :=
  {| config.ID := items.ID item;
     config.Name := items.Name item;
     config.URL := items.URL item;
     config.Provider := items.Provider item;
     config.Selector := items.Selector item;
     config.Currency := items.Currency item;
     config.TargetPrice := items.TargetPrice item;
     config.PercentDrop := items.PercentDrop item;
     config.Schedule := items.Schedule item;
     config.Regex := items.Regex item;
     config.Attr := items.Attr item;
     config.Command := items.Command item |}.

(** The conversion written out in [handleImport]. *)
Definition toItem (itemConfig : config.ItemConfig) : items.Item :=
  {| items.ID := config.ID itemConfig;
     items.Name := config.Name itemConfig;
     items.URL := config.URL itemConfig;
     items.Provider := config.Provider itemConfig;
     items.Selector := config.Selector itemConfig;
     items.Currency := config.Currency itemConfig;
     items.TargetPrice := config.TargetPrice itemConfig;
     items.PercentDrop := config.PercentDrop itemConfig;
     items.Schedule := config.Schedule itemConfig;
     items.Regex := config.Regex itemConfig;
     items.Attr := config.Attr itemConfig;
     items.Command := config.Command itemConfig |}.

(** [truncateString]; [None] is the run-time panic of a slice expression
    with a negative bound. *)
Definition truncateString (s : string) (maxLen : Z) : option string :=
  if Z.of_nat (String.length s) <=? maxLen then Some s
  else if maxLen - 3 <? 0 then None
       else Some (String.substring 0 (Z.to_nat (maxLen - 3)) s ++ "...")%string.

Section CLI.
Context {RT : Runtime} {PR : providers.Registry}.

(** The fields [storage] and [tracker] are set by [Execute]: the store is
    the state, the tracker is built from the two other fields. *)
Record CLI := {
  config : config.Config;
  logger : logger.Logger }.

Definition trackerOf (c : CLI) : tracker.Tracker :=
  tracker.New (config c) (logger c).

(** The flags [noCache] and [respectCache] are not read by the body. *)
Definition trackOnce (c : CLI) (itemID : string) (noCache respectCache : bool)
  : items.Task unit :=
  fun st =>
    let (_, st0) :=
      items.onSession
        (Log (logger c) logger.LevelInfo "Starting one-time price tracking" []) st in
    if negb (String.eqb itemID "")
    then
      match items.GetItem itemID st0 with
      | (Go.Err e, st1) => (Go.Err (Go.wrapError "failed to get item" e), st1)
      | (Go.Ok None, st1) =>
          (Go.Err (Go.errorString ("item not found: " ++ itemID)), st1)
      | (Go.Ok (Some item), st1) =>
          items.onSession (tracker.TrackItem (trackerOf c) (toItemConfig item)) st1
      end
    else items.onSession (tracker.TrackAll (trackerOf c)) st0.


End CLI.

End cli.

(** ** Package utils *)

Module utils.

(** [float64(n)] for an [int] that is not negative. *)
Definition float64 (n : Z) : float := PrimFloat.of_uint63 (Uint63.of_Z n).

(** The loop of [findMinMax] over [prices[1:]]. *)
Fixpoint scanMinMax (min max : float) (rest : list float) : float * float :=
  match rest with
  | [] => (min, max)
  | price :: rest' =>
      let min' := if (price <? min)%float then price else min in
      let max' := if (max <? price)%float then price else max in
      scanMinMax min' max' rest'
  end.

Definition findMinMax (prices : list float) : float * float :=
  match prices with
  | [] => (0%float, 0%float)
  | first :: rest => scanMinMax first first rest
  end.

Definition CalculatePriceChange (oldPrice newPrice : float) : float :=
  if (oldPrice =? 0)%float then 0%float
  else (((newPrice - oldPrice) / oldPrice) * 100)%float.

(** [sum := 0.0; for ... { sum += price }] *)
Definition sum (prices : list float) : float :=
  fold_left PrimFloat.add prices 0%float.

(** The result [nil] is the empty list: a result that is not nil has at
    least one element. *)
Definition CalculateMovingAverage (prices : list float) (window : Z) : list float :=
  if (Z.of_nat (List.length prices) <? window) || (window <=? 0) then []
  else
    map (fun i => (sum (firstn (Z.to_nat window) (skipn i prices))
                   / float64 window)%float)
        (seq 0 (List.length prices - Z.to_nat window + 1)).

(** One run of the inner loop of the bubble sort: [k] comparisons of
    neighbours from the start of the slice, swapping when
    [sorted[j] > sorted[j+1]]. *)
Fixpoint bubblePass (k : nat) (sorted : list float) : list float :=
  match k, sorted with
  | S k', a :: b :: rest =>
      if (b <? a)%float then b :: bubblePass k' (a :: rest)
      else a :: bubblePass k' (b :: rest)
  | _, _ => sorted
  end.

(** The outer loop: pass [i] makes [len - i - 1] comparisons, for [i]
    from [0] to [len - 2]; [passes] counts the passes still to run. *)
Fixpoint bubbleLoop (passes : nat) (sorted : list float) : list float :=
  match passes with
  | O => sorted
  | S passes' => bubbleLoop passes' (bubblePass passes sorted)
  end.

Definition bubbleSort (prices : list float) : list float :=
  bubbleLoop (List.length prices - 1) prices.

Definition median (sorted : list float) : float :=
  let n := List.length sorted in
  if Nat.eqb (n mod 2) 0
  then ((nth (n / 2 - 1) sorted 0 + nth (n / 2) sorted 0) / 2)%float
  else nth (n / 2) sorted 0%float.

Definition CalculateStats (prices : list float) : float * float * float * float :=
  match prices with
  | [] => (0%float, 0%float, 0%float, 0%float)
  | _ =>
      let (min, max) := findMinMax prices in
      let avg := (sum prices / float64 (Z.of_nat (List.length prices)))%float in
      (min, max, avg, median (bubbleSort prices))
  end.

End utils.

(** ** Orders of the queries *)

Module history.



End history.

(** ** Inputs of the examples for the table of items and the statistics *)

Module catalog.

(** The console and the television, saved as items. *)
Definition stocked : items.Store :=
  {| items.table := [cli.toItem sim.tv; cli.toItem sim.ps5];
     items.session := sim.mixed |}.


Definition cliOf (l : list config.ItemConfig) : cli.CLI :=
  {| cli.config := sim.configOf l; cli.logger := logger.New false |}.

(** A handle that was closed. *)
Definition closed : State :=
  {| world := {| sim.clock := 10; sim.pages := [("shop/ps5", sim.shows 50 "USD")] |};
     db := {| sqlite.prices := [sim.row "ps5" 1 100 "USD"];
              sqlite.fault := Some (Go.errorString "sql: database is closed") |};
     logs := [] |}.

Definition week : list float := [104; 99; 101; 97; 103]%float.

End catalog.

(** * Properties *)

(** ** The query of the sample history *)

Section QueryFacts.


Lemma whereItem_In (itemID : string) (rows : list sqlite.Row) (r : sqlite.Row) :
  In r (sqlite.whereItem itemID rows) -> In r rows /\ sqlite.item_id r = itemID.
Proof.
  unfold sqlite.whereItem. rewrite filter_In. intros [Hin Heq].
  split; [assumption | now apply String.eqb_eq].
Qed.



(** [LIMIT 1] and [LIMIT 5] of the same query start with the same row. *)
Lemma selectPrices_latest (itemID : string) (rows : list sqlite.Row) :
  sqlite.selectPrices itemID 1 rows = firstn 1 (sqlite.selectPrices itemID 5 rows).
Proof.
  unfold sqlite.selectPrices, sqlite.limitRows. simpl.
  destruct (sqlite.orderByTsDesc (sqlite.whereItem itemID rows)); reflexivity.
Qed.

End QueryFacts.

(** ** Storage *)

Section StorageFacts.
Context {RT : Runtime}.

(** A successful [SavePrice] appended exactly one row. *)
Lemma SavePrice_Ok_inv itemID price currency meta (s s1 : State) :
  storage.SavePrice itemID price currency meta s = (Go.Ok tt, s1) ->
  exists text,
    storage.metaText meta text
    /\ sqlite.fault (db s) = None
    /\ s1 = storage.afterSave (storage.savedRow itemID price currency text s) s.
Proof.
  unfold storage.SavePrice, bind, wrapf, lift, ret, Now, ExecInsert,
    storage.afterSave, storage.savedRow.
  destruct meta as [m|]; simpl.
  - destruct (json_Marshal m) as [text|e] eqn:Hm; simpl; [|discriminate].
    destruct (time_Now (world s)) as [now w]; simpl.
    destruct (sqlite.fault (db s)); simpl; [discriminate|].
    destruct (PrimFloat.is_nan price); simpl; [discriminate|].
    intros H. inversion H. exists text. auto.
  - destruct (time_Now (world s)) as [now w]; simpl.
    destruct (sqlite.fault (db s)); simpl; [discriminate|].
    destruct (PrimFloat.is_nan price); simpl; [discriminate|].
    intros H. inversion H. exists "". auto.
Qed.

(** A failed [SavePrice] left the table as it was. *)
Lemma SavePrice_Err_db itemID price currency meta (s s1 : State) e :
  storage.SavePrice itemID price currency meta s = (Go.Err e, s1) ->
  db s1 = db s /\ logs s1 = logs s.
Proof.
  unfold storage.SavePrice, bind, wrapf, lift, ret, Now, ExecInsert.
  destruct meta as [m|]; simpl.
  - destruct (json_Marshal m) as [text|e'] eqn:Hm; simpl.
    + destruct (time_Now (world s)) as [now w]; simpl.
      destruct (sqlite.fault (db s)); simpl; [intros H; inversion H; auto|].
      destruct (PrimFloat.is_nan price); simpl; intros H; inversion H; auto.
    + intros H; inversion H; auto.
  - destruct (time_Now (world s)) as [now w]; simpl.
    destruct (sqlite.fault (db s)); simpl; [intros H; inversion H; auto|].
    destruct (PrimFloat.is_nan price); simpl; intros H; inversion H; auto.
Qed.

(** The queries do not change the state. *)
Lemma GetPrices_state itemID limit (s : State) :
  snd (storage.GetPrices itemID limit s) = s.
Proof.
  unfold storage.GetPrices, bind, wrapf, lift, Query.
  destruct (sqlite.fault (db s)); reflexivity.
Qed.

Lemma GetPrices_Ok_inv itemID limit (s s' : State) samples :
  storage.GetPrices itemID limit s = (Go.Ok samples, s') ->
  sqlite.fault (db s) = None
  /\ mapResult storage.scanRow (sqlite.selectPrices itemID limit (sqlite.prices (db s)))
     = Go.Ok samples
  /\ s' = s.
Proof.
  unfold storage.GetPrices, bind, wrapf, lift, Query.
  destruct (sqlite.fault (db s)); [discriminate|].
  intros H. inversion H. auto.
Qed.

(** With a history of at least one sample, [GetLatestPrice] returns the
    first sample of [GetPrices]. *)
Lemma GetLatestPrice_head itemID (s s' : State) cur rest :
  storage.GetPrices itemID 5 s = (Go.Ok (cur :: rest), s') ->
  storage.GetLatestPrice itemID s = (Go.Ok (Some cur), s).
Proof.
  intros H. apply GetPrices_Ok_inv in H. destruct H as (Hf & Hrows & _).
  unfold storage.GetLatestPrice, bind, wrapf, lift, ret, Query.
  rewrite Hf, selectPrices_latest.
  destruct (sqlite.selectPrices itemID 5 (sqlite.prices (db s))) as [|r rows];
    simpl in Hrows; [discriminate|].
  simpl. destruct (storage.scanRow r) as [p|e]; [|discriminate].
  destruct (mapResult storage.scanRow rows); [|discriminate].
  inversion Hrows. reflexivity.
Qed.

Lemma GetLatestPrice_empty itemID (s s' : State) :
  storage.GetPrices itemID 5 s = (Go.Ok [], s') ->
  storage.GetLatestPrice itemID s = (Go.Ok None, s).
Proof.
  intros H. apply GetPrices_Ok_inv in H. destruct H as (Hf & Hrows & _).
  unfold storage.GetLatestPrice, bind, wrapf, lift, ret, Query.
  rewrite Hf, selectPrices_latest.
  destruct (sqlite.selectPrices itemID 5 (sqlite.prices (db s))) as [|r rows];
    [reflexivity|].
  simpl in Hrows. destruct (storage.scanRow r); [|discriminate].
  destruct (mapResult storage.scanRow rows); discriminate.
Qed.


End StorageFacts.

(** ** Tracker *)

Section TrackerFacts.
Context {RT : Runtime} {PR : providers.Registry}.

Lemma Log_run l lv message kv (s : State) :
  Log l lv message kv s = (Go.Ok tt, logged l lv message kv s).
Proof. unfold logged, Log. destruct (logger.enabled l lv); reflexivity. Qed.

Lemma logged_db l lv message kv (s : State) : db (logged l lv message kv s) = db s.
Proof. unfold logged, Log. destruct (logger.enabled l lv); reflexivity. Qed.

Lemma logged_world l lv message kv (s : State) :
  world (logged l lv message kv s) = world s.
Proof. unfold logged, Log. destruct (logger.enabled l lv); reflexivity. Qed.

Lemma logged_logs l lv message kv (s : State) :
  logs (logged l lv message kv s)
  = (logs s ++ (if logger.enabled l lv
                then [ {| logger.level := lv; logger.msg := message;
                          logger.args := kv |} ]
                else []))%list.
Proof.
  unfold logged, Log. destruct (logger.enabled l lv); simpl.
  - reflexivity.
  - now rewrite app_nil_r.
Qed.

(** [TrackItem], one return statement after the other. *)
Lemma TrackItem_run (t : tracker.Tracker) (item : config.ItemConfig) (s : State) :
  tracker.TrackItem t item s =
  match providers.GetProvider (config.Provider item)
          (config.Defaults (tracker.config t)) with
  | Go.Err e => (Go.Err (Go.wrapError "failed to get provider" e), tracker.trackingItem t item s)
  | Go.Ok p =>
      match providers.Fetch p item (world s) with
      | (Go.Err e, w) =>
          (Go.Err (Go.wrapError "failed to fetch price" e),
           setWorld w (tracker.trackingItem t item s))
      | (Go.Ok sample, w) =>
          match storage.SavePrice (config.ID item) (providers.Price sample)
                  (providers.Currency sample) (providers.Meta sample)
                  (setWorld w (tracker.trackingItem t item s)) with
          | (Go.Err e, s2) => (Go.Err (Go.wrapError "failed to save price" e), s2)
          | (Go.Ok _, s2) => (Go.Ok tt, tracker.priceTracked t item sample s2)
          end
      end
  end.
Proof.
  unfold tracker.TrackItem, tracker.trackingItem, tracker.priceTracked.
  unfold bind at 1. rewrite Log_run.
  unfold bind at 1. unfold wrapf at 1. unfold lift.
  destruct (providers.GetProvider _ _) as [p|e]; [|reflexivity].
  unfold bind at 1. unfold wrapf at 1. unfold tracker.fetch.
  rewrite logged_world.
  destruct (providers.Fetch p item (world s)) as [[sample|e] w]; [|reflexivity].
  fold (setWorld w (logged (tracker.logger t) logger.LevelDebug "Tracking item"
          [("id", logger.StringValue (config.ID item));
           ("name", logger.StringValue (config.Name item))] s)).
  unfold bind at 1. unfold wrapf at 1.
  destruct (storage.SavePrice _ _ _ _ _) as [[u|e] s2]; [|reflexivity].
  unfold bind at 1. rewrite Log_run. reflexivity.
Qed.

(** C10. When the provider lookup or the fetch of [TrackItem] returns an
    error, [TrackItem] returns an error that wraps it and the database
    is the one before the call: no row was written. *)
Theorem C10_failed_fetch_writes_nothing
        (t : tracker.Tracker) (item : config.ItemConfig) (s : State) (e : Go.error) :
  (providers.GetProvider (config.Provider item) (config.Defaults (tracker.config t))
   = Go.Err e
   \/ exists p,
       providers.GetProvider (config.Provider item) (config.Defaults (tracker.config t))
       = Go.Ok p
       /\ fst (providers.Fetch p item (world s)) = Go.Err e) ->
  exists err s',
    tracker.TrackItem t item s = (Go.Err err, s')
    /\ Go.Unwrap err = Some e
    /\ db s' = db s
    /\ storage.GetPrices (config.ID item) (-1) s'
       = (fst (storage.GetPrices (config.ID item) (-1) s), s').
Proof.
  intros Hfail. rewrite TrackItem_run.
  assert (Hread : forall s' : State, db s' = db s ->
            storage.GetPrices (config.ID item) (-1) s'
            = (fst (storage.GetPrices (config.ID item) (-1) s), s')).
  { intros s' Hdb. rewrite (surjective_pairing (storage.GetPrices _ _ s')).
    rewrite GetPrices_state. f_equal.
    unfold storage.GetPrices, bind, wrapf, lift, Query. rewrite Hdb.
    destruct (sqlite.fault (db s)); reflexivity. }
  destruct Hfail as [Hget | (p & Hget & Hfetch)]; rewrite Hget.
  - exists (Go.wrapError "failed to get provider" e), (tracker.trackingItem t item s).
    assert (Hdb : db (tracker.trackingItem t item s) = db s) by apply logged_db.
    auto.
  - destruct (providers.Fetch p item (world s)) as [r w]. simpl in Hfetch. subst r.
    exists (Go.wrapError "failed to fetch price" e),
           (setWorld w (tracker.trackingItem t item s)).
    assert (Hdb : db (setWorld w (tracker.trackingItem t item s)) = db s) by apply logged_db.
    auto.
Qed.

(** A successful [TrackItem]: provider found, sample fetched, one row
    appended, "Price tracked" logged. *)
Lemma TrackItem_Ok_inv (t : tracker.Tracker) (item : config.ItemConfig) (s s' : State) :
  tracker.TrackItem t item s = (Go.Ok tt, s') ->
  exists p sample w text,
    providers.GetProvider (config.Provider item) (config.Defaults (tracker.config t))
    = Go.Ok p
    /\ providers.Fetch p item (world s) = (Go.Ok sample, w)
    /\ storage.metaText (providers.Meta sample) text
    /\ s' = tracker.priceTracked t item sample
              (storage.afterSave
                 (storage.savedRow (config.ID item) (providers.Price sample)
                    (providers.Currency sample) text
                    (setWorld w (tracker.trackingItem t item s)))
                 (setWorld w (tracker.trackingItem t item s))).
Proof.
  rewrite TrackItem_run.
  destruct (providers.GetProvider _ _) as [p|e]; [|discriminate].
  destruct (providers.Fetch p item (world s)) as [[sample|e] w] eqn:Hfetch;
    [|discriminate].
  destruct (storage.SavePrice _ _ _ _ _) as [[u|e] s2] eqn:Hsave; [|discriminate].
  destruct u. apply SavePrice_Ok_inv in Hsave.
  destruct Hsave as (text & Htext & _ & ->).
  intros H. inversion H. exists p, sample, w, text. repeat split; auto.
Qed.

Lemma countFailedToTrack_app (l1 l2 : list logger.Entry) :
  alerts.countFailedToTrack (l1 ++ l2)
  = (alerts.countFailedToTrack l1 + alerts.countFailedToTrack l2)%nat.
Proof.
  unfold alerts.countFailedToTrack. now rewrite filter_app, length_app.
Qed.

Lemma countFailedToTrack_logged l lv message kv (s : State) :
  alerts.countFailedToTrack (logs (logged l lv message kv s))
  = (alerts.countFailedToTrack (logs s)
     + (if logger.enabled l lv
        then alerts.countFailedToTrack
               [ {| logger.level := lv; logger.msg := message; logger.args := kv |} ]
        else 0))%nat.
Proof.
  rewrite logged_logs, countFailedToTrack_app.
  destruct (logger.enabled l lv); reflexivity.
Qed.

Lemma trackingItem_count t item (s : State) :
  alerts.countFailedToTrack (logs (tracker.trackingItem t item s))
  = alerts.countFailedToTrack (logs s).
Proof.
  unfold tracker.trackingItem. rewrite countFailedToTrack_logged.
  destruct (logger.enabled _ _); unfold alerts.countFailedToTrack; simpl; lia.
Qed.

(** What one [TrackItem] does to the table and to the count of
    "Failed to track item" entries: a success appends one row, a failure
    none, and neither logs such an entry. *)
Lemma TrackItem_effect (t : tracker.Tracker) (item : config.ItemConfig) (s : State) :
  let r := tracker.TrackItem t item s in
  alerts.countFailedToTrack (logs (snd r)) = alerts.countFailedToTrack (logs s)
  /\ List.length (sqlite.prices (db (snd r)))
     = (List.length (sqlite.prices (db s)) + (if Go.is_ok (fst r) then 1 else 0))%nat.
Proof.
  cbv zeta. rewrite TrackItem_run.
  assert (Hdb0 : forall w, db (setWorld w (tracker.trackingItem t item s)) = db s)
    by (intros w; apply logged_db).
  assert (Hlog0 : forall w,
             alerts.countFailedToTrack (logs (setWorld w (tracker.trackingItem t item s)))
             = alerts.countFailedToTrack (logs s))
    by (intros w; apply trackingItem_count).
  destruct (providers.GetProvider _ _) as [p|e]; cbn [fst snd Go.is_ok].
  - destruct (providers.Fetch p item (world s)) as [[sample|e] w]; cbn [fst snd Go.is_ok].
    + destruct (storage.SavePrice _ _ _ _ _) as [[u|e] s2] eqn:Hsave;
        cbn [fst snd Go.is_ok].
      * destruct u. apply SavePrice_Ok_inv in Hsave.
        destruct Hsave as (text & _ & _ & ->).
        unfold tracker.priceTracked.
        rewrite countFailedToTrack_logged, logged_db.
        unfold storage.afterSave at 2. cbn [db sqlite.prices].
        rewrite length_app, Hdb0. cbn [List.length]. split; [|lia].
        unfold storage.afterSave. cbn [logs]. rewrite Hlog0.
        destruct (logger.enabled _ _); unfold alerts.countFailedToTrack; simpl; lia.
      * apply SavePrice_Err_db in Hsave. destruct Hsave as [Hdb Hlogs].
        rewrite Hdb, Hlogs, Hdb0, Hlog0. split; lia.
    + rewrite Hdb0, Hlog0. split; lia.
  - rewrite trackingItem_count.
    replace (db (tracker.trackingItem t item s)) with (db s)
      by (symmetry; apply logged_db).
    split; lia.
Qed.

End TrackerFacts.

Section TrackAllFacts.
Context {RT : Runtime} {PR : providers.Registry}.

Lemma emitted_app (s s' : State) (new : list logger.Entry) :
  logs s' = (logs s ++ new)%list -> alerts.emitted s s' = new.
Proof.
  unfold alerts.emitted. intros ->.
  induction (logs s) as [|e l IH]; simpl; auto.
Qed.

(** The loop of [TrackAll]: it reaches its end whatever the items do,
    logs one "Failed to track item" per failed item and appends one row
    per item that did not fail. *)
Lemma trackLoop_run (t : tracker.Tracker) (items : list config.ItemConfig) :
  forall s : State,
  exists s',
    tracker.forEach items
      (fun item =>
         tracker.orElse (tracker.TrackItem t item)
           (fun err =>
              Log (tracker.logger t) logger.LevelError "Failed to track item"
                [("item", logger.StringValue (config.ID item));
                 ("error", logger.ErrorValue err)])) s
    = (Go.Ok tt, s')
    /\ alerts.countFailedToTrack (logs s')
       = (alerts.countFailedToTrack (logs s) + invariant.failures t items s)%nat
    /\ (List.length (sqlite.prices (db s')) + invariant.failures t items s
        = List.length (sqlite.prices (db s)) + List.length items)%nat.
Proof.
  induction items as [|item rest IH]; intros s.
  - exists s. simpl. unfold ret. repeat split; lia.
  - cbn [tracker.forEach invariant.failures]. unfold bind at 1.
    unfold tracker.orElse at 1.
    pose proof (TrackItem_effect t item s) as Heff. cbv zeta in Heff.
    destruct (tracker.TrackItem t item s) as [[u|e] s1]; cbn [fst snd Go.is_ok] in Heff.
    + destruct Heff as [Hcount Hrows].
      destruct (IH s1) as (s' & Hrun & Hc & Hr).
      exists s'. rewrite Hrun. split; [reflexivity|].
      cbn [List.length]. split; lia.
    + destruct Heff as [Hcount Hrows].
      rewrite Log_run. cbn [snd].
      set (sE := logged (tracker.logger t) logger.LevelError "Failed to track item"
                   [("item", logger.StringValue (config.ID item));
                    ("error", logger.ErrorValue e)] s1).
      assert (HcE : alerts.countFailedToTrack (logs sE)
                    = S (alerts.countFailedToTrack (logs s1))).
      { unfold sE. rewrite countFailedToTrack_logged.
        cbn [logger.enabled]. unfold alerts.countFailedToTrack at 2. cbn. lia. }
      assert (HdE : db sE = db s1) by apply logged_db.
      clearbody sE.
      destruct (IH sE) as (s' & Hrun & Hc & Hr).
      exists s'. rewrite Hrun. split; [reflexivity|].
      rewrite HcE in Hc. rewrite HdE in Hr.
      cbn [List.length]. split; lia.
Qed.

(** C4 (amended). [TrackAll] runs [TrackItem] on every configured item
    and always returns nil; each item that did not fail has its sample
    written, and each failed item leaves exactly one "Failed to track
    item" entry in the logger output.  The returned value carries no
    count. *)
Theorem C4_trackAll_continues_and_logs_each_failure
        (t : tracker.Tracker) (s : State) :
  exists s',
    tracker.TrackAll t s = (Go.Ok tt, s')
    /\ (List.length (sqlite.prices (db s')) + invariant.failedItems t s
        = List.length (sqlite.prices (db s))
          + List.length (config.Items (tracker.config t)))%nat
    /\ alerts.countFailedToTrack (logs s')
       = (alerts.countFailedToTrack (logs s) + invariant.failedItems t s)%nat.
Proof.
  unfold tracker.TrackAll, invariant.failedItems.
  unfold bind at 1. rewrite Log_run. cbn [snd].
  set (s0 := logged (tracker.logger t) logger.LevelInfo
               "Starting price tracking for all items" [] s).
  assert (Hs0c : alerts.countFailedToTrack (logs s0) = alerts.countFailedToTrack (logs s)).
  { unfold s0. rewrite countFailedToTrack_logged. cbn. lia. }
  assert (Hs0d : db s0 = db s) by apply logged_db.
  clearbody s0.
  unfold bind at 1.
  destruct (trackLoop_run t (config.Items (tracker.config t)) s0)
    as (s1 & Hrun & Hcount & Hrows).
  rewrite Hrun. unfold bind at 1. rewrite Log_run. unfold ret.
  eexists. split; [reflexivity|].
  rewrite logged_db, countFailedToTrack_logged.
  rewrite Hs0c in Hcount. rewrite Hs0d in Hrows.
  cbn [logger.enabled]. unfold alerts.countFailedToTrack at 2. cbn.
  split; lia.
Qed.


End TrackAllFacts.

(** ** Rule evaluator *)

Section EvaluatorFacts.
Context {RT : Runtime} {PR : providers.Registry}.

Lemma State_eta (s : State) :
  {| world := world s; db := db s; logs := logs s |} = s.
Proof. destruct s; reflexivity. Qed.

Lemma withEntries_nil (s : State) : tracker.withEntries [] s = s.
Proof. unfold tracker.withEntries. rewrite app_nil_r. apply State_eta. Qed.

Lemma Log_Info_run l message kv (s : State) :
  Log l logger.LevelInfo message kv s
  = (Go.Ok tt,
     tracker.withEntries
       [ {| logger.level := logger.LevelInfo; logger.msg := message;
            logger.args := kv |} ] s).
Proof. reflexivity. Qed.

Lemma withEntries_app (l1 l2 : list logger.Entry) (s : State) :
  tracker.withEntries l2 (tracker.withEntries l1 s) = tracker.withEntries (l1 ++ l2) s.
Proof. unfold tracker.withEntries. simpl. now rewrite app_assoc. Qed.

(** With at least two samples in the history, [checkItemAlerts] returns
    nil after the target rule and the percent-drop rule have logged
    their entries. *)
Lemma checkItemAlerts_run (t : tracker.Tracker) (item : config.ItemConfig)
      (s : State) cur previous rest :
  fst (storage.GetPrices (config.ID item) 5 s) = Go.Ok (cur :: previous :: rest) ->
  tracker.checkItemAlerts t item s
  = (Go.Ok tt,
     tracker.withEntries
       (tracker.targetEntries item cur ++ tracker.dropEntries t item cur previous) s).
Proof.
  intros Hhist.
  assert (Hprices : storage.GetPrices (config.ID item) 5 s
                    = (Go.Ok (cur :: previous :: rest), s)).
  { rewrite (surjective_pairing (storage.GetPrices _ _ s)).
    now rewrite Hhist, GetPrices_state. }
  unfold tracker.checkItemAlerts.
  unfold bind at 1. unfold wrapf at 1.
  rewrite (GetLatestPrice_head _ _ _ _ _ Hprices).
  unfold bind at 1. unfold wrapf at 1. rewrite Hprices.
  unfold bind at 1.
  unfold tracker.targetEntries, tracker.dropEntries.
  destruct (config.TargetPrice item) as [target|].
  - destruct (storage.Price cur <=? target)%float.
    + rewrite Log_Info_run.
      destruct (0 <? tracker.effectivePercentDrop t item)%float.
      * destruct (tracker.effectivePercentDrop t item <=? _)%float.
        -- rewrite Log_Info_run, withEntries_app. reflexivity.
        -- unfold ret. now rewrite app_nil_r.
      * unfold ret. now rewrite app_nil_r.
    + unfold ret at 1.
      destruct (0 <? tracker.effectivePercentDrop t item)%float.
      * destruct (tracker.effectivePercentDrop t item <=? _)%float.
        -- rewrite Log_Info_run. reflexivity.
        -- unfold ret. now rewrite withEntries_nil.
      * unfold ret. now rewrite withEntries_nil.
  - unfold ret at 1.
    destruct (0 <? tracker.effectivePercentDrop t item)%float.
    + destruct (tracker.effectivePercentDrop t item <=? _)%float.
      * rewrite Log_Info_run. reflexivity.
      * unfold ret. now rewrite withEntries_nil.
    + unfold ret. now rewrite withEntries_nil.
Qed.

(** With fewer than two samples, [checkItemAlerts] returns before any
    rule is looked at. *)
Lemma checkItemAlerts_few (t : tracker.Tracker) (item : config.ItemConfig)
      (s : State) samples :
  fst (storage.GetPrices (config.ID item) 5 s) = Go.Ok samples ->
  (List.length samples < 2)%nat ->
  tracker.checkItemAlerts t item s = (Go.Ok tt, s).
Proof.
  intros Hhist Hfew.
  assert (Hprices : storage.GetPrices (config.ID item) 5 s = (Go.Ok samples, s)).
  { rewrite (surjective_pairing (storage.GetPrices _ _ s)).
    now rewrite Hhist, GetPrices_state. }
  unfold tracker.checkItemAlerts.
  unfold bind at 1. unfold wrapf at 1.
  destruct samples as [|cur [|previous rest]].
  - now rewrite (GetLatestPrice_empty _ _ _ Hprices).
  - rewrite (GetLatestPrice_head _ _ _ _ _ Hprices).
    unfold bind at 1. unfold wrapf at 1. now rewrite Hprices.
  - simpl in Hfew. lia.
Qed.

Lemma fires_withEntries (message : string) (new : list logger.Entry) (s : State) :
  alerts.fires message s (tracker.withEntries new s)
  = existsb (alerts.named message) new.
Proof.
  unfold alerts.fires. now rewrite (emitted_app s (tracker.withEntries new s) new).
Qed.

Lemma fires_percent_drop (t : tracker.Tracker) (item : config.ItemConfig)
      (s : State) cur previous :
  alerts.fires alerts.percent_drop s
    (tracker.withEntries
       (tracker.targetEntries item cur ++ tracker.dropEntries t item cur previous) s)
  = ((0 <? tracker.effectivePercentDrop t item)%float
     && (tracker.effectivePercentDrop t item
         <=? tracker.dropPercent (storage.Price previous) (storage.Price cur))%float).
Proof.
  rewrite fires_withEntries, existsb_app.
  unfold tracker.targetEntries, tracker.dropEntries.
  destruct (config.TargetPrice item) as [target|];
    [destruct (storage.Price cur <=? target)%float|];
    destruct (0 <? tracker.effectivePercentDrop t item)%float;
    try destruct (tracker.effectivePercentDrop t item <=? _)%float; reflexivity.
Qed.

Lemma fires_target_reached (t : tracker.Tracker) (item : config.ItemConfig)
      (s : State) cur previous :
  alerts.fires alerts.target_reached s
    (tracker.withEntries
       (tracker.targetEntries item cur ++ tracker.dropEntries t item cur previous) s)
  = match config.TargetPrice item with
    | Some target => (storage.Price cur <=? target)%float
    | None => false
    end.
Proof.
  rewrite fires_withEntries, existsb_app.
  unfold tracker.targetEntries, tracker.dropEntries.
  destruct (config.TargetPrice item) as [target|];
    [destruct (storage.Price cur <=? target)%float|];
    destruct (0 <? tracker.effectivePercentDrop t item)%float;
    try destruct (tracker.effectivePercentDrop t item <=? _)%float; reflexivity.
Qed.

(** Dividing by a previous price of [+0]: for a current price that is
    not negative the quotient is NaN or minus infinity, below every
    positive threshold. *)
Lemma dropPercent_from_zero (latestPrice threshold : float) :
  (0 <=? latestPrice)%float = true ->
  (0 <? threshold)%float = true ->
  (threshold <=? tracker.dropPercent 0 latestPrice)%float = false.
Proof.
  intros Hcur Hthr. unfold tracker.dropPercent.
  rewrite leb_spec in *. rewrite ltb_spec in Hthr.
  rewrite mul_spec, div_spec, sub_spec.
  change (Prim2SF 0) with (S754_zero false) in *.
  replace (Prim2SF 100) with (S754_finite false 7036874417766400 (-46))
    by (vm_compute; reflexivity).
  destruct (Prim2SF latestPrice) as [sc|sc| |sc mc ec],
           (Prim2SF threshold) as [st|st| |st mt et];
    try discriminate; try destruct sc; try destruct st;
    try discriminate; reflexivity.
Qed.

(** C1 (amended). For an item with at least two samples the evaluator
    returns no error and decides the percent-drop alert from the two
    prices alone: it fires exactly when the effective threshold is
    positive and at most [((previous - current) / previous) * 100] in
    float64, whatever the currency codes of the two samples.  The
    division is performed also by a previous price of zero; for a
    previous price of [+0] and a current price that is not negative its
    result is NaN or minus infinity and the alert does not fire. *)
Theorem C1_percent_drop_compares_prices_only
        (t : tracker.Tracker) (item : config.ItemConfig) (s : State)
        cur previous rest :
  fst (storage.GetPrices (config.ID item) 5 s) = Go.Ok (cur :: previous :: rest) ->
  fst (tracker.checkItemAlerts t item s) = Go.Ok tt
  /\ alerts.fires alerts.percent_drop s (snd (tracker.checkItemAlerts t item s))
     = ((0 <? tracker.effectivePercentDrop t item)%float
        && (tracker.effectivePercentDrop t item
            <=? tracker.dropPercent (storage.Price previous) (storage.Price cur))%float)
  /\ (storage.Price previous = 0%float ->
      (0 <=? storage.Price cur)%float = true ->
      alerts.fires alerts.percent_drop s (snd (tracker.checkItemAlerts t item s))
      = false).
Proof.
  intros Hhist. rewrite (checkItemAlerts_run t item s cur previous rest Hhist).
  cbn [fst snd]. rewrite fires_percent_drop.
  split; [reflexivity|]. split; [reflexivity|].
  intros Hzero Hcur. rewrite Hzero.
  destruct (0 <? tracker.effectivePercentDrop t item)%float eqn:Hthr; [|reflexivity].
  now rewrite (dropPercent_from_zero _ _ Hcur Hthr).
Qed.

(** C5 (amended). For an item with at least two samples the percent-drop
    alert fires exactly when the effective threshold is greater than 0
    and [drop = ((previous - current) / previous) * 100] is greater than
    or equal to it; the entry carries the computed drop.  The effective
    threshold is the item's [percent_drop] when set and the global one
    otherwise, which [Load] sets to 8 when it is not configured.  From
    100 to 91 the drop is exactly 9.0 and reaches the threshold 8; from
    100 to 93 it does not. *)
Theorem C5_percent_drop_fires_at_positive_threshold
        (t : tracker.Tracker) (item : config.ItemConfig) (s : State)
        cur previous rest :
  fst (storage.GetPrices (config.ID item) 5 s) = Go.Ok (cur :: previous :: rest) ->
  let threshold := tracker.effectivePercentDrop t item in
  let drop := tracker.dropPercent (storage.Price previous) (storage.Price cur) in
  (alerts.fires alerts.percent_drop s (snd (tracker.checkItemAlerts t item s)) = true
   <-> (0 <? threshold)%float = true /\ (threshold <=? drop)%float = true)
  /\ (alerts.fires alerts.percent_drop s (snd (tracker.checkItemAlerts t item s)) = true ->
      exists e,
        In e (alerts.emitted s (snd (tracker.checkItemAlerts t item s)))
        /\ logger.msg e = alerts.percent_drop
        /\ In ("drop_percent", logger.Float64Value drop) (logger.args e))
  /\ threshold = match config.PercentDrop item with
                 | Some p => p
                 | None => config.Rules_PercentDrop (config.Rules (tracker.config t))
                 end
  /\ (forall cfg, (config.Rules_PercentDrop (config.Rules cfg) =? 0)%float = true ->
                  config.Rules_PercentDrop (config.Rules (config.Load cfg)) = 8%float)
  /\ tracker.dropPercent 100 91 = 9%float
  /\ (8 <=? tracker.dropPercent 100 91)%float = true
  /\ (8 <=? tracker.dropPercent 100 93)%float = false.
Proof.
  intros Hhist threshold drop.
  rewrite (checkItemAlerts_run t item s cur previous rest Hhist).
  cbn [fst snd]. rewrite fires_percent_drop. fold threshold. fold drop.
  split; [apply andb_true_iff|].
  split.
  - intros Hfires. apply andb_true_iff in Hfires. destruct Hfires as [Hpos Hge].
    rewrite (emitted_app s (tracker.withEntries _ s) _ eq_refl).
    unfold tracker.dropEntries. fold threshold. fold drop. rewrite Hpos, Hge.
    eexists. split; [apply in_or_app; right; left; reflexivity|].
    split; [reflexivity|]. simpl. auto.
  - split; [reflexivity|]. split.
    + intros cfg Hunset. unfold config.Load. simpl. now rewrite Hunset.
    + repeat split; vm_compute; reflexivity.
Qed.

End EvaluatorFacts.

(** ** The invariant of the stored samples *)

Section InvariantFacts.
Context {RT : Runtime} {PR : providers.Registry}.

Lemma TrackItem_Err_db (t : tracker.Tracker) (item : config.ItemConfig)
      (s s' : State) (e : Go.error) :
  tracker.TrackItem t item s = (Go.Err e, s') -> db s' = db s.
Proof.
  rewrite TrackItem_run.
  assert (Hdb0 : forall w, db (setWorld w (tracker.trackingItem t item s)) = db s)
    by (intros w; apply logged_db).
  destruct (providers.GetProvider _ _) as [p|e0].
  - destruct (providers.Fetch p item (world s)) as [[sample|e1] w].
    + destruct (storage.SavePrice _ _ _ _ _) as [[u|e2] s2] eqn:Hsave.
      * discriminate.
      * apply SavePrice_Err_db in Hsave. destruct Hsave as [Hdb _].
        intros H. inversion H. subst s2. now rewrite Hdb.
    + intros H. inversion H. apply Hdb0.
  - intros H. inversion H. apply logged_db.
Qed.

Lemma validRow_incl (l l' : list config.ItemConfig) (r : sqlite.Row) :
  incl l l' -> invariant.validRow l r -> invariant.validRow l' r.
Proof.
  intros Hincl (item & Hin & Hid & Hv). exists item. auto.
Qed.

(** Storage checks nothing: while the handle is usable, [SavePrice]
    accepts every price that is a number and every currency string. *)
Lemma SavePrice_accepts itemID price currency (s : State) :
  sqlite.fault (db s) = None ->
  PrimFloat.is_nan price = false ->
  fst (storage.SavePrice itemID price currency None s) = Go.Ok tt.
Proof.
  intros Hfault Hnum.
  unfold storage.SavePrice, bind, wrapf, lift, ret, Now, ExecInsert. simpl.
  destruct (time_Now (world s)) as [now w]. simpl. now rewrite Hfault, Hnum.
Qed.

Section ValidFetches.
Variable t : tracker.Tracker.

(** Every sample a provider of this configuration returns fits the
    item it was fetched for. *)
Hypothesis fetched_valid :
  forall kind p item w sample,
    providers.GetProvider kind (config.Defaults (tracker.config t)) = Go.Ok p ->
    fst (providers.Fetch p item w) = Go.Ok sample ->
    invariant.validSample item (providers.Price sample) (providers.Currency sample)
    = true.

Lemma TrackItem_rows (item : config.ItemConfig) (s : State) (r : sqlite.Row) :
  In r (sqlite.prices (db (snd (tracker.TrackItem t item s)))) ->
  In r (sqlite.prices (db s)) \/ invariant.validRow [item] r.
Proof.
  destruct (tracker.TrackItem t item s) as [[u|e] s'] eqn:Hrun; cbn [snd].
  - destruct u. apply TrackItem_Ok_inv in Hrun.
    destruct Hrun as (p & sample & w & text & Hget & Hfetch & _ & ->).
    unfold tracker.priceTracked. rewrite logged_db.
    cbn [storage.afterSave db sqlite.prices setWorld].
    unfold tracker.trackingItem. rewrite logged_db.
    intros Hin. apply in_app_or in Hin. destruct Hin as [Hold | [<- | []]].
    + now left.
    + right. exists item. split; [now left|]. split; [reflexivity|].
      cbn [storage.savedRow sqlite.price sqlite.currency].
      apply (fetched_valid (config.Provider item) p item (world s)); [exact Hget|].
      now rewrite Hfetch.
  - apply TrackItem_Err_db in Hrun. rewrite Hrun. now left.
Qed.

Lemma trackLoop_rows (items : list config.ItemConfig) :
  forall (s : State) (r : sqlite.Row),
    In r (sqlite.prices (db (snd (tracker.forEach items
      (fun item =>
         tracker.orElse (tracker.TrackItem t item)
           (fun err =>
              Log (tracker.logger t) logger.LevelError "Failed to track item"
                [("item", logger.StringValue (config.ID item));
                 ("error", logger.ErrorValue err)])) s)))) ->
    In r (sqlite.prices (db s)) \/ invariant.validRow items r.
Proof.
  induction items as [|item rest IH]; intros s r.
  - simpl. auto.
  - cbn [tracker.forEach]. unfold bind at 1. unfold tracker.orElse at 1.
    pose proof (TrackItem_rows item s r) as Hstep.
    destruct (tracker.TrackItem t item s) as [[u|e] s1]; cbn [snd] in Hstep.
    + intros Hin. apply IH in Hin. destruct Hin as [Hin | Hv].
      * destruct (Hstep Hin) as [Hold | Hv]; [now left|].
        right. revert Hv. apply validRow_incl. intros x [<- | []]. now left.
      * right. revert Hv. apply validRow_incl. intros x Hx. now right.
    + rewrite Log_run. intros Hin. apply IH in Hin. destruct Hin as [Hin | Hv].
      * rewrite logged_db in Hin. destruct (Hstep Hin) as [Hold | Hv]; [now left|].
        right. revert Hv. apply validRow_incl. intros x [<- | []]. now left.
      * right. revert Hv. apply validRow_incl. intros x Hx. now right.
Qed.

Lemma TrackAll_rows (s : State) (r : sqlite.Row) :
  In r (sqlite.prices (db (snd (tracker.TrackAll t s)))) ->
  In r (sqlite.prices (db s))
  \/ invariant.validRow (config.Items (tracker.config t)) r.
Proof.
  unfold tracker.TrackAll. unfold bind at 1. rewrite Log_run.
  unfold bind at 1.
  pose proof (trackLoop_rows (config.Items (tracker.config t))
                (logged (tracker.logger t) logger.LevelInfo
                   "Starting price tracking for all items" [] s) r) as Hloop.
  destruct (tracker.forEach _ _ _) as [[u|e] s1]; cbn [snd] in *.
  - unfold bind at 1. rewrite Log_run. unfold ret. cbn [snd].
    rewrite logged_db. intros Hin. apply Hloop in Hin.
    now rewrite logged_db in Hin.
  - intros Hin. apply Hloop in Hin. now rewrite logged_db in Hin.
Qed.

Lemma runOps_rows (ops : list invariant.Op) :
  forall (s : State) (r : sqlite.Row),
    In r (sqlite.prices (db (invariant.runOps t ops s))) ->
    In r (sqlite.prices (db s)) \/ invariant.validRow (invariant.itemsOf t ops) r.
Proof.
  induction ops as [|op ops IH]; intros s r; unfold invariant.runOps in *.
  - simpl. auto.
  - cbn [fold_left invariant.itemsOf flat_map]. intros Hin.
    apply IH in Hin. destruct Hin as [Hin | Hv].
    + destruct op as [item|]; cbn [invariant.runOp] in Hin.
      * apply TrackItem_rows in Hin. destruct Hin as [Hold | Hv]; [now left|].
        right. revert Hv. apply validRow_incl. intros x Hx.
        apply in_or_app. now left.
      * apply TrackAll_rows in Hin. destruct Hin as [Hold | Hv]; [now left|].
        right. revert Hv. apply validRow_incl. intros x Hx.
        apply in_or_app. now left.
    + right. revert Hv. apply validRow_incl. intros x Hx.
      apply in_or_app. now right.
Qed.

End ValidFetches.

(** C9 (amended). A storage write checks neither the sign of the price
    nor the currency: [SavePrice] accepts every price that is a number
    and every currency string, and tracking stores what the provider
    returned.  So the samples written by a sequence of
    tracking operations have a strictly positive price and a
    three-letter currency code that is their item's whenever every
    sample the providers return has. *)
Theorem C9_tracking_stores_valid_samples_of_valid_fetches
        (t : tracker.Tracker) (ops : list invariant.Op) (s : State) :
  (forall kind p item w sample,
      providers.GetProvider kind (config.Defaults (tracker.config t)) = Go.Ok p ->
      fst (providers.Fetch p item w) = Go.Ok sample ->
      invariant.validSample item (providers.Price sample) (providers.Currency sample)
      = true) ->
  (forall r,
      In r (sqlite.prices (db (invariant.runOps t ops s))) ->
      In r (sqlite.prices (db s)) \/ invariant.validRow (invariant.itemsOf t ops) r)
  /\ (forall itemID price currency (s0 : State),
         sqlite.fault (db s0) = None ->
         PrimFloat.is_nan price = false ->
         fst (storage.SavePrice itemID price currency None s0) = Go.Ok tt).
Proof.
  intros Hvalid. split.
  - intros r. now apply runOps_rows.
  - intros itemID price currency s0. apply SavePrice_accepts.
Qed.

End InvariantFacts.

(** ** Notification fan-out *)

Section NotificationFacts.
Context {TR : notifications.Transport}.



End NotificationFacts.

(** ** Retry delay *)

Section RetryFacts.

Lemma total_map_le (f g : Z -> Z) (l : list Z) :
  (forall x, In x l -> f x <= g x) ->
  retry.total (map f l) <= retry.total (map g l).
Proof.
  induction l as [|x l IH]; intros Hle; simpl.
  - lia.
  - assert (f x <= g x) by (apply Hle; now left).
    assert (retry.total (map f l) <= retry.total (map g l))
      by (apply IH; intros y Hy; apply Hle; now right).
    lia.
Qed.

Lemma backoff_bounds (r : config.RetryConfig) (n : Z) :
  2 <= n -> 0 <= config.BaseDelay r -> 0 <= config.MaxDelay r ->
  0 <= retry.backoff r n <= config.MaxDelay r.
Proof.
  intros Hn Hbase Hmax. unfold retry.backoff.
  assert (0 <= 2 ^ (n - 2)) by (apply Z.pow_nonneg; lia).
  assert (0 <= config.BaseDelay r * 2 ^ (n - 2)) by (apply Z.mul_nonneg_nonneg; lia).
  lia.
Qed.

Lemma backoff_mono (r : config.RetryConfig) (n : Z) :
  2 <= n -> 0 <= config.BaseDelay r ->
  retry.backoff r n <= retry.backoff r (n + 1).
Proof.
  intros Hn Hbase. unfold retry.backoff.
  assert (2 ^ (n - 2) <= 2 ^ (n + 1 - 2)) by (apply Z.pow_le_mono_r; lia).
  assert (config.BaseDelay r * 2 ^ (n - 2) <= config.BaseDelay r * 2 ^ (n + 1 - 2))
    by (apply Z.mul_le_mono_nonneg_l; lia).
  lia.
Qed.

Lemma jitters_In (r : config.RetryConfig) (j : Z) :
  0 <= j <= config.BaseDelay r -> In j (retry.jitters r).
Proof.
  intros Hj. unfold retry.jitters. apply in_map_iff.
  exists (Z.to_nat j). split; [lia|]. apply in_seq. lia.
Qed.

(** C6. Before try [n >= 2] the wrapper waits
    [min(maxDelay, baseDelay * 2^(n-2))] plus a jitter drawn uniformly
    from [0 .. baseDelay]; with non-negative settings the delay lies in
    [[0, maxDelay + baseDelay]], its mean over the draws does not
    decrease from one try to the next, and it stays the same once the
    exponential term has reached [maxDelay]. *)
Theorem C6_backoff_delay_bounded_and_monotone
        (r : config.RetryConfig) (n jitter : Z) :
  2 <= n ->
  0 <= config.BaseDelay r ->
  0 <= config.MaxDelay r ->
  0 <= jitter <= config.BaseDelay r ->
  retry.delay r n jitter
  = Z.min (config.MaxDelay r) (config.BaseDelay r * 2 ^ (n - 2)) + jitter
  /\ In jitter (retry.jitters r)
  /\ 0 <= retry.delay r n jitter <= config.MaxDelay r + config.BaseDelay r
  /\ (retry.expectedDelay r n <= retry.expectedDelay r (n + 1))%Q
  /\ (config.MaxDelay r <= config.BaseDelay r * 2 ^ (n - 2) ->
      retry.expectedDelay r (n + 1) = retry.expectedDelay r n).
Proof.
  intros Hn Hbase Hmax Hj.
  pose proof (backoff_bounds r n Hn Hbase Hmax) as Hb.
  pose proof (backoff_mono r n Hn Hbase) as Hm.
  split; [reflexivity|]. split; [now apply jitters_In|].
  split; [unfold retry.delay; lia|]. split.
  - unfold retry.expectedDelay, Qle. cbn [Qnum Qden].
    apply Z.mul_le_mono_nonneg_r; [lia|].
    apply total_map_le. intros x _. unfold retry.delay. lia.
  - intros Hclamped. unfold retry.expectedDelay. f_equal. f_equal.
    apply map_ext. intros x. unfold retry.delay. f_equal.
    pose proof (backoff_bounds r (n + 1) ltac:(lia) Hbase Hmax) as Hb1.
    unfold retry.backoff in *. lia.
Qed.

End RetryFacts.

(** * Concrete runs *)

Section Examples.

(** The currencies of the two newest samples differ and the percent-drop
    alert fires all the same: 100 USD, then 91 EUR, threshold 8. *)
Lemma C1_counterexample :
  ~ spec.guardsComparison (sim.trackerOf [sim.ps5]) sim.ps5 sim.mixed.
Proof.
  intros Hguard.
  destruct (Hguard (sim.sample "ps5" 2 91 "EUR") (sim.sample "ps5" 1 100 "USD") [])
    as [_ Hsilent].
  - vm_compute. reflexivity.
  - right. vm_compute. discriminate.
  - vm_compute in Hsilent. discriminate.
Qed.

Lemma C1_witness :
  fst (tracker.checkItemAlerts (sim.trackerOf [sim.ps5]) sim.ps5 sim.mixed) = Go.Ok tt
  /\ alerts.fires alerts.percent_drop sim.mixed
       (snd (tracker.checkItemAlerts (sim.trackerOf [sim.ps5]) sim.ps5 sim.mixed))
     = ((0 <? 8)%float && (8 <=? tracker.dropPercent 100 91)%float).
Proof.
  destruct (C1_percent_drop_compares_prices_only
              (sim.trackerOf [sim.ps5]) sim.ps5 sim.mixed
              (sim.sample "ps5" 2 91 "EUR") (sim.sample "ps5" 1 100 "USD") [])
    as (Hok & Hfires & _).
  - vm_compute. reflexivity.
  - split; [exact Hok | exact Hfires].
Defined.

(** C2. With a target price of 50 and a single stored sample of exactly
    50, [checkItemAlerts] returns at the check of the history length and
    logs nothing: the target rule, which needs the current sample only,
    is not reached. *)
Theorem C2_target_rule_skipped_on_single_sample :
  config.TargetPrice sim.ps5 = Some 50%float
  /\ fst (storage.GetPrices "ps5" 5 sim.single) = Go.Ok [sim.sample "ps5" 1 50 "USD"]
  /\ (50 <=? 50)%float = true
  /\ tracker.checkItemAlerts (sim.trackerOf [sim.ps5]) sim.ps5 sim.single
     = (Go.Ok tt, sim.single)
  /\ ~ spec.targetNeedsOnlyCurrent (sim.trackerOf [sim.ps5]) sim.ps5 sim.single.
Proof.
  repeat split; try (vm_compute; reflexivity).
  intros Hfires.
  specialize (Hfires (sim.sample "ps5" 1 50 "USD") [] 50%float).
  vm_compute in Hfires.
  specialize (Hfires eq_refl eq_refl eq_refl). discriminate.
Qed.

(** With a sample before it, a current price of exactly the target is
    reported: the boundary is inclusive. *)
Example target_reached_at_boundary :
  alerts.fires alerts.target_reached
    (sim.state 10 [] [sim.row "ps5" 1 100 "USD"; sim.row "ps5" 2 50 "USD"])
    (snd (tracker.checkItemAlerts (sim.trackerOf [sim.ps5]) sim.ps5
            (sim.state 10 [] [sim.row "ps5" 1 100 "USD"; sim.row "ps5" 2 50 "USD"])))
  = true.
Proof. vm_compute. reflexivity. Qed.



(** A run with one failed item and a run with none return the same
    value: no count can be read off it. *)
Lemma C4_counterexample : ~ spec.statusReportsFailures (RT := sim.RT) (PR := sim.PR).
Proof.
  intros [report Hreport].
  pose proof (Hreport (sim.trackerOf [sim.ps5; sim.gone; sim.tv]) sim.shop) as Hone.
  pose proof (Hreport (sim.trackerOf [sim.ps5; sim.tv]) sim.shop) as Hnone.
  vm_compute in Hone, Hnone. rewrite Hone in Hnone. discriminate.
Qed.

(** Three items, the second of which cannot be fetched: the samples of
    the other two are written, one failure is logged, nil is returned. *)
Example trackAll_three_items :
  let t := sim.trackerOf [sim.ps5; sim.gone; sim.tv] in
  fst (tracker.TrackAll t sim.shop) = Go.Ok tt
  /\ map sqlite.item_id (sqlite.prices (db (snd (tracker.TrackAll t sim.shop))))
     = ["ps5"; "tv"]
  /\ invariant.failedItems t sim.shop = 1%nat
  /\ alerts.countFailedToTrack (logs (snd (tracker.TrackAll t sim.shop))) = 1%nat.
Proof. vm_compute. repeat split; reflexivity. Qed.

(** With [percent_drop: 0] and twice the same price the drop is 0, which
    is at least the threshold, and no alert fires. *)
Lemma C5_counterexample :
  ~ spec.firesExactlyAtThreshold (sim.trackerOf [sim.ps5_drop0]) sim.ps5_drop0 sim.flat.
Proof.
  intros Hexact.
  destruct (Hexact (sim.sample "ps5" 2 100 "USD") (sim.sample "ps5" 1 100 "USD") [])
    as [_ Hfires].
  - vm_compute. reflexivity.
  - vm_compute in Hfires. specialize (Hfires eq_refl). discriminate.
Qed.

(** From 100 to 91 under the default threshold of 8 the alert fires. *)
Lemma C5_witness :
  alerts.fires alerts.percent_drop sim.drop9
    (snd (tracker.checkItemAlerts (sim.trackerOf [sim.ps5]) sim.ps5 sim.drop9)) = true
  /\ tracker.effectivePercentDrop (sim.trackerOf [sim.ps5]) sim.ps5 = 8%float.
Proof.
  destruct (C5_percent_drop_fires_at_positive_threshold
              (sim.trackerOf [sim.ps5]) sim.ps5 sim.drop9
              (sim.sample "ps5" 2 91 "USD") (sim.sample "ps5" 1 100 "USD") [])
    as (Hiff & _ & Hthr & _).
  - vm_compute. reflexivity.
  - split.
    + apply Hiff. split; vm_compute; reflexivity.
    + vm_compute. reflexivity.
Defined.

(** From 100 to 93 it does not. *)
Example percent_drop_93 :
  alerts.fires alerts.percent_drop sim.drop7
    (snd (tracker.checkItemAlerts (sim.trackerOf [sim.ps5]) sim.ps5 sim.drop7)) = false.
Proof. vm_compute. reflexivity. Qed.

Lemma C6_witness :
  retry.delay sim.fewNanoseconds 3 1 = Z.min 7 (2 * 2 ^ (3 - 2)) + 1
  /\ 0 <= retry.delay sim.fewNanoseconds 3 1 <= 7 + 2
  /\ (retry.expectedDelay sim.fewNanoseconds 3
      <= retry.expectedDelay sim.fewNanoseconds (3 + 1))%Q.
Proof.
  destruct (C6_backoff_delay_bounded_and_monotone sim.fewNanoseconds 3 1)
    as (Heq & _ & Hbound & Hmean & _).
  - lia.
  - simpl. lia.
  - simpl. lia.
  - simpl. lia.
  - split; [exact Heq|]. split; [exact Hbound | exact Hmean].
Defined.

(** Both enabled channels fail, both were called, nil is returned. *)
Example send_two_failing_channels :
  notifications.Send sim.twoChannels "ps5: 50 USD" sim.emptyOutbox
  = (None,
     {| notifications.net := tt;
        notifications.attempts :=
          [(notifications.TelegramNotifier "42", "ps5: 50 USD");
           (notifications.NtfyNotifier "prices", "ps5: 50 USD")];
        notifications.stderr :=
          ["Failed to send notification: telegram notification not implemented yet"
             ++ notifications.newline;
           "Failed to send notification: ntfy notification not implemented yet"
             ++ notifications.newline] |}).
Proof. vm_compute. reflexivity. Qed.


(** The page shows a price of 0 in EUR for an item kept in USD, and the
    sample is stored as it is. *)
Lemma C9_counterexample :
  ~ spec.writesOnlyValid (sim.trackerOf [sim.ps5]) sim.ps5 sim.soldOut.
Proof.
  intros Hvalid.
  destruct (Hvalid
              (snd (tracker.TrackItem (sim.trackerOf [sim.ps5]) sim.ps5 sim.soldOut))
              {| sqlite.item_id := "ps5"; sqlite.ts := 10; sqlite.price := 0;
                 sqlite.currency := "EUR"; sqlite.meta := Some "" |})
    as [[] | (item & [<- | []] & _ & Hv)].
  - vm_compute. reflexivity.
  - vm_compute. left. reflexivity.
  - vm_compute in Hv. discriminate.
Qed.

Lemma checked_fetches_valid (t : tracker.Tracker) :
  forall kind p item w sample,
    providers.GetProvider (Registry := sim.Checked) kind
      (config.Defaults (tracker.config t)) = Go.Ok p ->
    fst (providers.Fetch (Registry := sim.Checked) p item w) = Go.Ok sample ->
    invariant.validSample item (providers.Price sample) (providers.Currency sample)
    = true.
Proof.
  intros kind p item w sample _. cbn [providers.Fetch sim.Checked].
  destruct (sim.pageAt (config.URL item) (sim.pages w)) as [pg|]; [|discriminate].
  destruct (invariant.validSample item (sim.shown_price pg) (sim.shown_currency pg))
    eqn:Hv; [|discriminate].
  cbn [fst]. intros H. inversion H. exact Hv.
Defined.

Lemma C9_witness :
  invariant.validRow [sim.ps5; sim.ps5] sim.written.
Proof.
  destruct (C9_tracking_stores_valid_samples_of_valid_fetches (PR := sim.Checked)
              (sim.trackerOf [sim.ps5])
              [invariant.OpTrackItem sim.ps5; invariant.OpTrackAll] sim.shop
              (checked_fetches_valid (sim.trackerOf [sim.ps5]))) as [Hrows _].
  destruct (Hrows sim.written) as [[] | Hv].
  - vm_compute. left. reflexivity.
  - exact Hv.
Defined.

Lemma C10_witness :
  exists err s',
    tracker.TrackItem (sim.trackerOf [sim.gone]) sim.gone sim.sale = (Go.Err err, s')
    /\ Go.Unwrap err = Some (Go.errorString "unexpected status 404")
    /\ db s' = db sim.sale
    /\ storage.GetPrices "gone" (-1) s'
       = (fst (storage.GetPrices "gone" (-1) sim.sale), s').
Proof.
  apply (C10_failed_fetch_writes_nothing (sim.trackerOf [sim.gone]) sim.gone sim.sale).
  right. exists "generic". split; reflexivity.
Defined.

End Examples.

(** * Further properties of the code *)

(** ** The history query *)

Section HistoryFacts.
Context {RT : Runtime}.

Lemma insertDesc_perm (r : sqlite.Row) (l : list sqlite.Row) :
  Permutation (sqlite.insertDesc r l) (r :: l).
Proof.
  induction l as [|x l IH]; simpl.
  - apply Permutation_refl.
  - destruct (sqlite.ts x <=? sqlite.ts r).
    + apply Permutation_refl.
    + eapply Permutation_trans; [apply perm_skip, IH | apply perm_swap].
Qed.

Lemma orderByTsDesc_perm (rows : list sqlite.Row) :
  Permutation (sqlite.orderByTsDesc rows) rows.
Proof.
  unfold sqlite.orderByTsDesc. induction rows as [|r rows IH]; simpl.
  - apply Permutation_refl.
  - eapply Permutation_trans; [apply insertDesc_perm | now apply perm_skip].
Qed.



Lemma In_firstn {A} (n : nat) (l : list A) (x : A) : In x (firstn n l) -> In x l.
Proof.
  intros Hin. rewrite <- (firstn_skipn n l). apply in_or_app. now left.
Qed.

Lemma Forall2_In_r {A B} (R : A -> B -> Prop) (l : list A) (l' : list B) (b : B) :
  Forall2 R l l' -> In b l' -> exists a, In a l /\ R a b.
Proof.
  induction 1 as [|a b' l l' Hab _ IH]; intros Hin.
  - destruct Hin.
  - destruct Hin as [<- | Hin].
    + exists a. split; [now left | exact Hab].
    + destruct (IH Hin) as (a' & Ha' & HR). exists a'. split; [now right | exact HR].
Qed.



Lemma selectPrices_In itemID limit (rows : list sqlite.Row) (r : sqlite.Row) :
  In r (sqlite.selectPrices itemID limit rows) ->
  In r rows /\ sqlite.item_id r = itemID.
Proof.
  unfold sqlite.selectPrices, sqlite.limitRows. intros Hin.
  assert (Hsorted : In r (sqlite.orderByTsDesc (sqlite.whereItem itemID rows))).
  { destruct (limit <? 0); [exact Hin | now apply In_firstn in Hin]. }
  apply (Permutation_in _ (orderByTsDesc_perm _)) in Hsorted.
  now apply whereItem_In.
Qed.

(** The samples of a successful loop over rows, row by row. *)
Lemma mapResult_Forall2 {A B} (f : A -> Go.result B) (l : list A) (l' : list B) :
  mapResult f l = Go.Ok l' -> Forall2 (fun a b => f a = Go.Ok b) l l'.
Proof.
  revert l'. induction l as [|a l IH]; simpl; intros l' H.
  - inversion H. constructor.
  - destruct (f a) as [b|e] eqn:Hfa; [|discriminate].
    destruct (mapResult f l) as [bs|e]; [|discriminate].
    inversion H. constructor; auto.
Qed.

Lemma scanRow_fields (r : sqlite.Row) (p : storage.PriceSample) :
  storage.scanRow r = Go.Ok p ->
  storage.ItemID p = sqlite.item_id r
  /\ storage.Time p = sqlite.ts r
  /\ storage.Price p = sqlite.price r
  /\ storage.Currency p = sqlite.currency r.
Proof.
  unfold storage.scanRow.
  destruct (sqlite.meta r) as [text|].
  - destruct (String.eqb text "").
    + intros H. inversion H. simpl. auto.
    + destruct (json_Unmarshal text) as [m|e]; [|discriminate].
      intros H. inversion H. simpl. auto.
  - intros H. inversion H. simpl. auto.
Qed.

(** X1. A successful [GetPrices(id, limit)] returns only samples of the
    item [id], each the decoding of a row of the table, and for a limit
    that is not negative at most [limit] of them. *)
Theorem X1_GetPrices_only_stored_samples_of_the_item
        (itemID : string) (limit : Z) (s s' : State) (samples : list storage.PriceSample) :
  storage.GetPrices itemID limit s = (Go.Ok samples, s') ->
  (forall p, In p samples ->
             storage.ItemID p = itemID
             /\ exists r, In r (sqlite.prices (db s)) /\ storage.scanRow r = Go.Ok p)
  /\ (0 <= limit -> (List.length samples <= Z.to_nat limit)%nat).
Proof.
  intros Hget. apply GetPrices_Ok_inv in Hget. destruct Hget as (_ & Hmap & _).
  apply mapResult_Forall2 in Hmap. split.
  - intros p Hp.
    destruct (Forall2_In_r _ _ _ p Hmap Hp) as (r & Hr & Hscan).
    apply selectPrices_In in Hr. destruct Hr as [Hin Hid].
    apply scanRow_fields in Hscan as Hfields. destruct Hfields as (Hitem & _).
    split; [congruence|]. exists r. auto.
  - intros Hlimit. rewrite <- (Forall2_length Hmap).
    unfold sqlite.selectPrices, sqlite.limitRows.
    destruct (limit <? 0) eqn:Hneg; [apply Z.ltb_lt in Hneg; lia|].
    apply firstn_le_length.
Qed.





(** X5. Saving a sample for one item leaves the history of every other
    item as it was: [GetPrices] for another id returns what it returned
    before. *)
Theorem X5_SavePrice_leaves_other_histories
        (itemID other : string) (price : float) (currency : string)
        (meta : option MapSI) (limit : Z) (s s1 : State) :
  storage.SavePrice itemID price currency meta s = (Go.Ok tt, s1) ->
  other <> itemID ->
  fst (storage.GetPrices other limit s1) = fst (storage.GetPrices other limit s).
Proof.
  intros Hsave Hother.
  apply SavePrice_Ok_inv in Hsave. destruct Hsave as (text & _ & Hfault & ->).
  unfold storage.GetPrices, bind, wrapf, lift, Query, storage.afterSave.
  cbn [db sqlite.fault sqlite.prices]. rewrite Hfault.
  unfold sqlite.selectPrices, sqlite.whereItem. rewrite filter_app.
  cbn [filter storage.savedRow sqlite.item_id].
  destruct (String.eqb itemID other) eqn:Heq.
  - apply String.eqb_eq in Heq. congruence.
  - now rewrite app_nil_r.
Qed.

End HistoryFacts.

(** ** The table of items *)

Section ItemFacts.
Context {RT : Runtime}.

Lemma find_none_app {A} (f : A -> bool) (l1 l2 : list A) :
  find f l1 = None -> find f (l1 ++ l2) = find f l2.
Proof.
  induction l1 as [|a l1 IH]; simpl; [reflexivity|].
  destruct (f a); [discriminate | exact IH].
Qed.

Lemma find_some_app {A} (f : A -> bool) (l1 l2 : list A) (a : A) :
  find f l1 = Some a -> find f (l1 ++ l2) = Some a.
Proof.
  induction l1 as [|b l1 IH]; simpl; [discriminate|].
  destruct (f b); [auto | exact IH].
Qed.

Lemma find_hasID_removed (itemID : string) (l : list items.Item) :
  find (items.hasID itemID) (filter (fun x => negb (items.hasID itemID x)) l) = None.
Proof.
  unfold items.hasID. induction l as [|x l IH]; simpl; [reflexivity|].
  destruct (String.eqb (items.ID x) itemID) eqn:Hx; simpl; [exact IH|].
  now rewrite Hx.
Qed.

Lemma find_hasID_other (itemID other : string) (l : list items.Item) :
  other <> itemID ->
  find (items.hasID other) (filter (fun x => negb (items.hasID itemID x)) l)
  = find (items.hasID other) l.
Proof.
  intros Hother. unfold items.hasID.
  induction l as [|x l IH]; simpl; [reflexivity|].
  destruct (String.eqb (items.ID x) itemID) eqn:Hx; simpl.
  - destruct (String.eqb (items.ID x) other) eqn:Ho; [|exact IH].
    apply String.eqb_eq in Hx. apply String.eqb_eq in Ho. congruence.
  - destruct (String.eqb (items.ID x) other); [reflexivity | exact IH].
Qed.





Lemma NoDup_map_filter {A B} (f : A -> B) (keep : A -> bool) (l : list A) :
  NoDup (map f l) -> NoDup (map f (filter keep l)).
Proof.
  induction l as [|a l IH]; simpl; intros Hnd; [constructor|].
  inversion Hnd as [|? ? Hnotin Hrest]; subst.
  destruct (keep a); simpl; [|now apply IH].
  constructor; [|now apply IH].
  intros Hin. apply Hnotin. apply in_map_iff in Hin.
  destruct Hin as (x & Hfx & Hx). apply filter_In in Hx.
  apply in_map_iff. exists x. tauto.
Qed.

(** X7. [SaveItem] replaces: the ids of the table stay unique, the
    lookup of every other id is unchanged, and the table [prices] is not
    touched. *)
Theorem X7_SaveItem_replaces_by_id (item : items.Item) (st st1 : items.Store) :
  items.SaveItem item st = (Go.Ok tt, st1) ->
  NoDup (map items.ID (items.table st)) ->
  NoDup (map items.ID (items.table st1))
  /\ (forall other, other <> items.ID item ->
                    fst (items.GetItem other st1) = fst (items.GetItem other st))
  /\ items.session st1 = items.session st.
Proof.
  intros Hsave Hnd. unfold items.SaveItem in Hsave.
  destruct (items.handleFault st) eqn:Hfault; [discriminate|].
  inversion Hsave. subst st1. clear Hsave. cbn [items.table items.session].
  split; [|split; [|reflexivity]].
  - rewrite map_app. apply NoDup_app.
    + now apply NoDup_map_filter.
    + simpl. constructor; [intros [] | constructor].
    + intros x Hx [Heq | []]. simpl in Heq.
      apply in_map_iff in Hx. destruct Hx as (y & Hy & Hin).
      apply filter_In in Hin. destruct Hin as [_ Hkeep].
      unfold items.hasID in Hkeep. rewrite Hy, <- Heq, String.eqb_refl in Hkeep.
      discriminate.
  - intros other Hother. unfold items.GetItem, items.handleFault in *.
    cbn [items.session items.table]. rewrite Hfault. cbn [fst]. f_equal.
    destruct (find (items.hasID other) (items.table st)) as [found|] eqn:Hfind.
    + apply find_some_app. now rewrite find_hasID_other.
    + rewrite find_none_app by now rewrite find_hasID_other.
      simpl. unfold items.hasID. simpl.
      destruct (String.eqb (items.ID item) other) eqn:Heq; [|reflexivity].
      apply String.eqb_eq in Heq. congruence.
Qed.

Lemma whereItem_deleted (itemID : string) (rows : list sqlite.Row) :
  sqlite.whereItem itemID
    (filter (fun r => negb (String.eqb (sqlite.item_id r) itemID)) rows) = [].
Proof.
  unfold sqlite.whereItem. induction rows as [|r l IH]; simpl; [reflexivity|].
  destruct (String.eqb (sqlite.item_id r) itemID) eqn:Hr; simpl; [exact IH|].
  now rewrite Hr.
Qed.

Lemma whereItem_deleted_other (itemID other : string) (rows : list sqlite.Row) :
  other <> itemID ->
  sqlite.whereItem other
    (filter (fun r => negb (String.eqb (sqlite.item_id r) itemID)) rows)
  = sqlite.whereItem other rows.
Proof.
  intros Hother. unfold sqlite.whereItem.
  induction rows as [|r l IH]; simpl; [reflexivity|].
  destruct (String.eqb (sqlite.item_id r) itemID) eqn:Hr; simpl.
  - destruct (String.eqb (sqlite.item_id r) other) eqn:Ho; [|exact IH].
    apply String.eqb_eq in Hr. apply String.eqb_eq in Ho. congruence.
  - destruct (String.eqb (sqlite.item_id r) other); [now rewrite IH | exact IH].
Qed.

(** X8. After a successful [DeleteItem] the item is gone and so is its
    whole price history, while every other item and every other history
    is as before. *)
Theorem X8_DeleteItem_removes_item_and_history
        (itemID : string) (limit : Z) (st st1 : items.Store) :
  items.DeleteItem itemID st = (Go.Ok tt, st1) ->
  fst (items.GetItem itemID st1) = Go.Ok None
  /\ fst (storage.GetPrices itemID limit (items.session st1)) = Go.Ok []
  /\ (forall other, other <> itemID ->
        fst (items.GetItem other st1) = fst (items.GetItem other st)
        /\ fst (storage.GetPrices other limit (items.session st1))
           = fst (storage.GetPrices other limit (items.session st))).
Proof.
  intros Hdel. unfold items.DeleteItem in Hdel.
  destruct (items.handleFault st) eqn:Hfault; [discriminate|].
  inversion Hdel. subst st1. clear Hdel.
  unfold items.GetItem, items.handleFault, storage.GetPrices, bind, wrapf, lift, Query in *.
  cbn [items.session items.table db sqlite.fault sqlite.prices fst]. rewrite Hfault.
  split; [now rewrite find_hasID_removed|]. split.
  - unfold sqlite.selectPrices. rewrite whereItem_deleted. cbn.
    unfold sqlite.limitRows. destruct (limit <? 0); [reflexivity|].
    now rewrite firstn_nil.
  - intros other Hother. split.
    + now rewrite find_hasID_other.
    + unfold sqlite.selectPrices. now rewrite whereItem_deleted_other.
Qed.




End ItemFacts.

(** ** Tracking and evaluating *)

Section TrackingFacts.
Context {RT : Runtime} {PR : providers.Registry}.

Lemma TrackItem_Ok_fault (t : tracker.Tracker) (item : config.ItemConfig) (s s' : State) :
  tracker.TrackItem t item s = (Go.Ok tt, s') -> sqlite.fault (db s) = None.
Proof.
  rewrite TrackItem_run.
  destruct (providers.GetProvider _ _) as [p|e]; [|discriminate].
  destruct (providers.Fetch p item (world s)) as [[sample|e] w]; [|discriminate].
  destruct (storage.SavePrice _ _ _ _ _) as [[u|e] s2] eqn:Hsave; [|discriminate].
  destruct u. apply SavePrice_Ok_inv in Hsave. destruct Hsave as (_ & _ & Hfault & _).
  intros _. unfold setWorld, tracker.trackingItem in Hfault. cbn [db] in Hfault.
  now rewrite logged_db in Hfault.
Qed.

(** The rows one [TrackItem] adds: none, or one row of the item. *)
Lemma TrackItem_appends (t : tracker.Tracker) (item : config.ItemConfig) (s : State) :
  exists new,
    sqlite.prices (db (snd (tracker.TrackItem t item s)))
    = (sqlite.prices (db s) ++ new)%list
    /\ Forall (fun r => sqlite.item_id r = config.ID item) new
    /\ sqlite.fault (db (snd (tracker.TrackItem t item s))) = sqlite.fault (db s).
Proof.
  destruct (tracker.TrackItem t item s) as [[u|e] s'] eqn:Hrun; cbn [snd].
  - destruct u. pose proof (TrackItem_Ok_fault _ _ _ _ Hrun) as Hfault.
    apply TrackItem_Ok_inv in Hrun.
    destruct Hrun as (p & sample & w & text & Hget & Hfetch & _ & ->).
    unfold tracker.priceTracked. rewrite logged_db.
    cbn [storage.afterSave db sqlite.prices sqlite.fault setWorld].
    unfold tracker.trackingItem. rewrite logged_db.
    eexists. split; [reflexivity|]. split; [repeat constructor | now rewrite Hfault].
  - apply TrackItem_Err_db in Hrun. rewrite Hrun. exists []. rewrite app_nil_r.
    repeat split. constructor.
Qed.

Lemma trackLoop_appends (t : tracker.Tracker) (items : list config.ItemConfig) :
  forall (s0 s1 : State) (r : Go.result unit),
    tracker.forEach items
      (fun item =>
         tracker.orElse (tracker.TrackItem t item)
           (fun err =>
              Log (tracker.logger t) logger.LevelError "Failed to track item"
                [("item", logger.StringValue (config.ID item));
                 ("error", logger.ErrorValue err)])) s0 = (r, s1) ->
    exists new,
      sqlite.prices (db s1) = (sqlite.prices (db s0) ++ new)%list
      /\ Forall (fun row => exists item, In item items
                                         /\ sqlite.item_id row = config.ID item) new
      /\ sqlite.fault (db s1) = sqlite.fault (db s0).
Proof.
  induction items as [|item rest IH]; intros s0 s1 r.
  - simpl. unfold ret. intros H. inversion H. subst.
    exists []. rewrite app_nil_r. repeat split. constructor.
  - cbn [tracker.forEach]. unfold bind at 1. unfold tracker.orElse at 1.
    destruct (TrackItem_appends t item s0) as (new1 & Hrows1 & Hall1 & Hfault1).
    assert (Hstep : forall s2 : State,
              sqlite.prices (db s2) = (sqlite.prices (db s0) ++ new1)%list ->
              sqlite.fault (db s2) = sqlite.fault (db s0) ->
              tracker.forEach rest
                (fun item0 =>
                   tracker.orElse (tracker.TrackItem t item0)
                     (fun err =>
                        Log (tracker.logger t) logger.LevelError "Failed to track item"
                          [("item", logger.StringValue (config.ID item0));
                           ("error", logger.ErrorValue err)])) s2 = (r, s1) ->
              exists new,
                sqlite.prices (db s1) = (sqlite.prices (db s0) ++ new)%list
                /\ Forall (fun row => exists i, In i (item :: rest)
                                                /\ sqlite.item_id row = config.ID i) new
                /\ sqlite.fault (db s1) = sqlite.fault (db s0)).
    { intros s2 Hrows2 Hfault2 Hrest. apply IH in Hrest.
      destruct Hrest as (new2 & Hrows & Hall2 & Hfault).
      exists (new1 ++ new2)%list. rewrite Hrows, Hrows2, Hfault, Hfault2.
      rewrite app_assoc. split; [reflexivity|]. split; [|reflexivity].
      apply Forall_app. split.
      - eapply Forall_impl; [|exact Hall1]. intros row Hrow. exists item.
        split; [now left | exact Hrow].
      - eapply Forall_impl; [|exact Hall2]. intros row (i & Hi & Hrow). exists i.
        split; [now right | exact Hrow]. }
    destruct (tracker.TrackItem t item s0) as [[u|e] s2]; cbn [snd] in *.
    + now apply Hstep.
    + rewrite Log_run. apply Hstep; now rewrite logged_db.
Qed.

(** X10. The tracker only appends: after [TrackAll] the rows stored
    before are still there, in front and in their order, the handle is as
    usable as before, and every row that was added carries the id of a
    configured item. *)
Theorem X10_TrackAll_only_appends (t : tracker.Tracker) (s : State) :
  exists new,
    sqlite.prices (db (snd (tracker.TrackAll t s)))
    = (sqlite.prices (db s) ++ new)%list
    /\ Forall (fun r => exists item,
                         In item (config.Items (tracker.config t))
                         /\ sqlite.item_id r = config.ID item) new
    /\ sqlite.fault (db (snd (tracker.TrackAll t s))) = sqlite.fault (db s).
Proof.
  destruct (tracker.TrackAll t s) as [res s'] eqn:Hrun. cbn [snd].
  unfold tracker.TrackAll in Hrun. unfold bind at 1 in Hrun. rewrite Log_run in Hrun.
  unfold bind at 1 in Hrun.
  destruct (tracker.forEach _ _ _) as [r s1] eqn:Hloop.
  apply trackLoop_appends in Hloop. destruct Hloop as (new & Hrows & Hall & Hfault).
  rewrite logged_db in Hrows, Hfault. exists new.
  destruct r as [u|e].
  - unfold bind at 1 in Hrun. rewrite Log_run in Hrun. unfold ret in Hrun.
    inversion Hrun. subst. rewrite logged_db. repeat split; assumption.
  - inversion Hrun. subst. repeat split; assumption.
Qed.

(** X11. Whatever makes [TrackItem] fail, the failure leaves the table
    as it was and logs no "Price tracked"; the error it returns names the
    step that failed and wraps the cause. *)
Theorem X11_TrackItem_failure_writes_nothing
        (t : tracker.Tracker) (item : config.ItemConfig) (s s' : State) (err : Go.error) :
  tracker.TrackItem t item s = (Go.Err err, s') ->
  db s' = db s
  /\ alerts.fires "Price tracked" s s' = false
  /\ exists cause,
       err = Go.wrapError "failed to get provider" cause
       \/ err = Go.wrapError "failed to fetch price" cause
       \/ err = Go.wrapError "failed to save price" cause.
Proof.
  intros Hrun. split; [exact (TrackItem_Err_db _ _ _ _ _ Hrun)|].
  rewrite TrackItem_run in Hrun.
  assert (Hlogs : forall w (s2 : State),
            logs s2 = logs (setWorld w (tracker.trackingItem t item s)) ->
            alerts.fires "Price tracked" s s2 = false).
  { intros w s2 Hlogs. unfold alerts.fires.
    rewrite (emitted_app s s2
               (if logger.enabled (tracker.logger t) logger.LevelDebug
                then [ {| logger.level := logger.LevelDebug;
                          logger.msg := "Tracking item";
                          logger.args :=
                            [("id", logger.StringValue (config.ID item));
                             ("name", logger.StringValue (config.Name item))] |} ]
                else [])).
    - destruct (logger.enabled _ _); reflexivity.
    - rewrite Hlogs. cbn [setWorld logs]. unfold tracker.trackingItem.
      apply logged_logs. }
  destruct (providers.GetProvider _ _) as [p|e0].
  - destruct (providers.Fetch p item (world s)) as [[sample|e1] w].
    + destruct (storage.SavePrice _ _ _ _ _) as [[u|e2] s2] eqn:Hsave; [discriminate|].
      inversion Hrun. subst. apply SavePrice_Err_db in Hsave.
      split; [apply (Hlogs w), Hsave | eauto].
    + inversion Hrun. subst. split; [now apply (Hlogs w) | eauto].
  - inversion Hrun. subst. split; [now apply (Hlogs (world s)) | eauto].
Qed.

(** X12. Tracking one item leaves the history of every other item as it
    was. *)
Theorem X12_TrackItem_leaves_other_histories
        (t : tracker.Tracker) (item : config.ItemConfig) (other : string)
        (limit : Z) (s : State) :
  other <> config.ID item ->
  fst (storage.GetPrices other limit (snd (tracker.TrackItem t item s)))
  = fst (storage.GetPrices other limit s).
Proof.
  intros Hother.
  destruct (TrackItem_appends t item s) as (new & Hrows & Hall & Hfault).
  unfold storage.GetPrices, bind, wrapf, lift, Query. rewrite Hfault, Hrows.
  destruct (sqlite.fault (db s)); [reflexivity|]. cbn [fst].
  unfold sqlite.selectPrices, sqlite.whereItem. rewrite filter_app.
  replace (filter (fun r => String.eqb (sqlite.item_id r) other) new) with (@nil sqlite.Row).
  - now rewrite app_nil_r.
  - symmetry. clear Hrows. induction Hall as [|r l Hr _ IH]; simpl; [reflexivity|].
    rewrite Hr. destruct (String.eqb (config.ID item) other) eqn:Heq; [|exact IH].
    apply String.eqb_eq in Heq. congruence.
Qed.

End TrackingFacts.

Section EvaluationFacts.
Context {RT : Runtime} {PR : providers.Registry}.

Lemma GetLatestPrice_state itemID (s : State) :
  snd (storage.GetLatestPrice itemID s) = s.
Proof.
  unfold storage.GetLatestPrice, bind, wrapf, lift, ret, Query.
  destruct (sqlite.fault (db s)); [reflexivity|].
  destruct (sqlite.selectPrices itemID 1 (sqlite.prices (db s))) as [|r rows];
    [reflexivity|].
  destruct (storage.scanRow r); reflexivity.
Qed.

Lemma withEntries_db new (s : State) : db (tracker.withEntries new s) = db s.
Proof. reflexivity. Qed.

(** [checkItemAlerts] reads: it changes neither the database nor the
    world, whatever it returns. *)
Lemma checkItemAlerts_reads_only (t : tracker.Tracker) (item : config.ItemConfig)
      (s : State) :
  db (snd (tracker.checkItemAlerts t item s)) = db s
  /\ world (snd (tracker.checkItemAlerts t item s)) = world s.
Proof.
  pose proof (GetPrices_state (config.ID item) 5 s) as Hp.
  destruct (storage.GetPrices (config.ID item) 5 s) as [[prices|e] s1] eqn:Hprices;
    cbn [snd] in Hp; subst s1.
  - destruct prices as [|cur [|previous rest]].
    + rewrite (checkItemAlerts_few t item s []);
        [split; reflexivity | now rewrite Hprices | simpl; lia].
    + rewrite (checkItemAlerts_few t item s [cur]);
        [split; reflexivity | now rewrite Hprices | simpl; lia].
    + rewrite (checkItemAlerts_run t item s cur previous rest);
        [split; reflexivity | now rewrite Hprices].
  - destruct (tracker.checkItemAlerts t item s) as [res s'] eqn:Hrun. cbn [snd].
    unfold tracker.checkItemAlerts in Hrun.
    unfold bind at 1 in Hrun. unfold wrapf at 1 in Hrun.
    pose proof (GetLatestPrice_state (config.ID item) s) as Hl.
    destruct (storage.GetLatestPrice (config.ID item) s) as [[[latest|]|e0] s1];
      cbn [snd] in Hl; subst s1.
    + unfold bind at 1 in Hrun. unfold wrapf at 1 in Hrun. rewrite Hprices in Hrun.
      inversion Hrun. split; reflexivity.
    + inversion Hrun. split; reflexivity.
    + inversion Hrun. split; reflexivity.
Qed.

(** X13. [CheckAlerts] always returns nil and only reads: the database
    and the world after it are the ones before it, whatever happens to
    the single items. *)
Theorem X13_CheckAlerts_returns_nil_and_reads_only (t : tracker.Tracker) (s : State) :
  fst (tracker.CheckAlerts t s) = Go.Ok tt
  /\ db (snd (tracker.CheckAlerts t s)) = db s
  /\ world (snd (tracker.CheckAlerts t s)) = world s.
Proof.
  assert (Hloop : forall items (s0 : State),
            exists s1,
              tracker.forEach items
                (fun item =>
                   tracker.orElse (tracker.checkItemAlerts t item)
                     (fun err =>
                        Log (tracker.logger t) logger.LevelError
                          "Failed to check alerts for item"
                          [("item", logger.StringValue (config.ID item));
                           ("error", logger.ErrorValue err)])) s0 = (Go.Ok tt, s1)
              /\ db s1 = db s0 /\ world s1 = world s0).
  { induction items as [|item rest IH]; intros s0.
    - exists s0. auto.
    - cbn [tracker.forEach]. unfold bind at 1. unfold tracker.orElse at 1.
      destruct (checkItemAlerts_reads_only t item s0) as [Hdb Hworld].
      destruct (tracker.checkItemAlerts t item s0) as [[u|e] s1]; cbn [snd] in *.
      + destruct (IH s1) as (s2 & Hrun & Hdb2 & Hworld2).
        exists s2. rewrite Hrun. repeat split; congruence.
      + rewrite Log_run.
        destruct (IH (logged (tracker.logger t) logger.LevelError
                        "Failed to check alerts for item"
                        [("item", logger.StringValue (config.ID item));
                         ("error", logger.ErrorValue e)] s1))
          as (s2 & Hrun & Hdb2 & Hworld2).
        rewrite logged_db in Hdb2. rewrite logged_world in Hworld2.
        exists s2. rewrite Hrun. repeat split; congruence. }
  destruct (tracker.CheckAlerts t s) as [res s'] eqn:Hcheck. cbn [fst snd].
  unfold tracker.CheckAlerts in Hcheck. unfold bind at 1 in Hcheck.
  rewrite Log_run in Hcheck. unfold bind at 1 in Hcheck.
  destruct (Hloop (config.Items (tracker.config t))
              (logged (tracker.logger t) logger.LevelInfo "Checking price alerts" [] s))
    as (s1 & Hrun & Hdb & Hworld).
  rewrite Hrun in Hcheck. unfold ret in Hcheck. inversion Hcheck. subst.
  rewrite logged_db in Hdb. rewrite logged_world in Hworld. auto.
Qed.

Lemma emitted_same (s : State) : alerts.emitted s s = [].
Proof. unfold alerts.emitted. apply skipn_all. Qed.

(** X14. With fewer than two stored samples of the item [checkItemAlerts]
    returns nil without logging anything: no rule is evaluated. *)
Theorem X14_no_rule_without_two_samples
        (t : tracker.Tracker) (item : config.ItemConfig) (s : State)
        (samples : list storage.PriceSample) :
  fst (storage.GetPrices (config.ID item) 5 s) = Go.Ok samples ->
  (List.length samples < 2)%nat ->
  fst (tracker.checkItemAlerts t item s) = Go.Ok tt
  /\ alerts.emitted s (snd (tracker.checkItemAlerts t item s)) = [].
Proof.
  intros Hhist Hfew. rewrite (checkItemAlerts_few t item s samples Hhist Hfew).
  cbn [fst snd]. split; [reflexivity | apply emitted_same].
Qed.

(** X15. With at least two stored samples the target alert fires exactly
    when the item has a target price and the newest price is less than or
    equal to it, whatever the percent-drop rule does. *)
Theorem X15_target_rule_inclusive
        (t : tracker.Tracker) (item : config.ItemConfig) (s : State)
        cur previous rest :
  fst (storage.GetPrices (config.ID item) 5 s) = Go.Ok (cur :: previous :: rest) ->
  alerts.fires alerts.target_reached s (snd (tracker.checkItemAlerts t item s)) = true
  <-> exists target,
        config.TargetPrice item = Some target
        /\ (storage.Price cur <=? target)%float = true.
Proof.
  intros Hhist. rewrite (checkItemAlerts_run t item s cur previous rest Hhist).
  cbn [snd]. rewrite fires_target_reached.
  destruct (config.TargetPrice item) as [target|]; split.
  - intros Hle. exists target. auto.
  - intros (target' & Heq & Hle). inversion Heq. now subst.
  - discriminate.
  - intros (target' & Heq & _). discriminate.
Qed.

(** X16. The two rules are independent and both may fire for one sample:
    the messages logged are the target alert, if it fires, followed by
    the percent-drop alert, if it fires. *)
Theorem X16_alerts_are_independent
        (t : tracker.Tracker) (item : config.ItemConfig) (s : State)
        cur previous rest :
  fst (storage.GetPrices (config.ID item) 5 s) = Go.Ok (cur :: previous :: rest) ->
  map logger.msg (alerts.emitted s (snd (tracker.checkItemAlerts t item s)))
  = ((if alerts.fires alerts.target_reached s (snd (tracker.checkItemAlerts t item s))
      then [alerts.target_reached] else [])
     ++ (if alerts.fires alerts.percent_drop s (snd (tracker.checkItemAlerts t item s))
         then [alerts.percent_drop] else []))%list.
Proof.
  intros Hhist. rewrite (checkItemAlerts_run t item s cur previous rest Hhist).
  cbn [snd]. rewrite fires_target_reached, fires_percent_drop.
  rewrite (emitted_app s (tracker.withEntries _ s) _ eq_refl).
  unfold tracker.targetEntries, tracker.dropEntries.
  destruct (config.TargetPrice item) as [target|];
    [destruct (storage.Price cur <=? target)%float|];
    destruct (0 <? tracker.effectivePercentDrop t item)%float;
    try destruct (tracker.effectivePercentDrop t item <=? _)%float; reflexivity.
Qed.


End EvaluationFacts.

(** ** Configuration defaults *)

Section ConfigFacts.

Lemma orString_set (s dflt : string) : dflt <> "" -> config.orString s dflt <> "".
Proof.
  intros Hd. unfold config.orString. destruct (String.eqb s "") eqn:Hs; [exact Hd|].
  intros ->. discriminate.
Qed.

Lemma orZ_set (z dflt : Z) : dflt <> 0 -> config.orZ z dflt <> 0.
Proof.
  intros Hd. unfold config.orZ. destruct (Z.eqb z 0) eqn:Hz; [exact Hd|].
  now apply Z.eqb_neq.
Qed.

Lemma orString_again (s dflt : string) :
  dflt <> "" -> config.orString (config.orString s dflt) dflt = config.orString s dflt.
Proof.
  intros Hd. unfold config.orString at 1.
  destruct (String.eqb (config.orString s dflt) "") eqn:Hs; [|reflexivity].
  apply String.eqb_eq in Hs. now apply orString_set in Hs.
Qed.

Lemma orZ_again (z dflt : Z) :
  dflt <> 0 -> config.orZ (config.orZ z dflt) dflt = config.orZ z dflt.
Proof.
  intros Hd. unfold config.orZ at 1.
  destruct (Z.eqb (config.orZ z dflt) 0) eqn:Hz; [|reflexivity].
  apply Z.eqb_eq in Hz. now apply orZ_set in Hz.
Qed.

(** X18. After [Load] none of the settings that have a default is left
    at its zero value, the percent-drop default is never 0, and the items
    and the notification settings are those of the file. *)
Theorem X18_Load_leaves_no_setting_unset (cfg : config.Config) :
  config.Driver (config.Storage (config.Load cfg)) <> ""
  /\ config.Path (config.Storage (config.Load cfg)) <> ""
  /\ config.Defaults_Currency (config.Defaults (config.Load cfg)) <> ""
  /\ config.Timezone (config.Defaults (config.Load cfg)) <> ""
  /\ config.UserAgent (config.Defaults (config.Load cfg)) <> ""
  /\ config.Attempts (config.Retry (config.Defaults (config.Load cfg))) <> 0
  /\ config.BaseDelay (config.Retry (config.Defaults (config.Load cfg))) <> 0
  /\ config.MaxDelay (config.Retry (config.Defaults (config.Load cfg))) <> 0
  /\ config.HTTPTimeout (config.Defaults (config.Load cfg)) <> 0
  /\ config.CacheTTL (config.Defaults (config.Load cfg)) <> 0
  /\ config.WaitUntil (config.Headless (config.Defaults (config.Load cfg))) <> ""
  /\ (config.Rules_PercentDrop (config.Rules (config.Load cfg)) =? 0)%float = false
  /\ config.Items (config.Load cfg) = config.Items cfg
  /\ config.Notifications (config.Load cfg) = config.Notifications cfg.
Proof.
  unfold config.Load. cbn.
  repeat (split; [first [apply orString_set; discriminate
                        | apply orZ_set; discriminate] |]).
  split; [|split; reflexivity].
  destruct (config.Rules_PercentDrop (config.Rules cfg) =? 0)%float eqn:Hp;
    [reflexivity | exact Hp].
Qed.

(** X19. [Load] is idempotent: applying the defaults to a loaded
    configuration changes nothing, so a value set by the file or by a
    default is never overridden. *)
Theorem X19_Load_idempotent (cfg : config.Config) :
  config.Load (config.Load cfg) = config.Load cfg.
Proof.
  unfold config.Load. cbn.
  rewrite !orString_again by discriminate.
  rewrite !orZ_again by discriminate.
  destruct (config.Rules_PercentDrop (config.Rules cfg) =? 0)%float eqn:Hp.
  - reflexivity.
  - now rewrite Hp.
Qed.

End ConfigFacts.

(** ** Notification channels *)

Section ChannelFacts.


Context {TR : notifications.Transport}.

Lemma sendEach_stderr (ns : list notifications.Notifier) (message : string) :
  forall o : notifications.Outbox,
    exists lines,
      notifications.stderr (notifications.sendEach ns message o)
      = (notifications.stderr o ++ lines)%list
      /\ (List.length lines <= List.length ns)%nat
      /\ ((forall n w, fst (notifications.deliver n message w) = None) -> lines = []).
Proof.
  induction ns as [|n ns IH]; intros o; cbn [notifications.sendEach].
  - exists []. rewrite app_nil_r. auto.
  - unfold notifications.Notifier_Send.
    destruct (notifications.deliver n message (notifications.net o)) as [[err|] w] eqn:Hd.
    + destruct (IH (notifications.Fprintf_Stderr
                      ("Failed to send notification: " ++ Go.Error err
                       ++ notifications.newline)
                      {| notifications.net := w;
                         notifications.attempts :=
                           (notifications.attempts o ++ [(n, message)])%list;
                         notifications.stderr := notifications.stderr o |}))
        as (lines & Hlines & Hlen & Hnone).
      cbn [notifications.Fprintf_Stderr notifications.stderr] in Hlines.
      eexists. rewrite Hlines, <- app_assoc. split; [reflexivity|].
      split; [simpl; lia|].
      intros Hok. specialize (Hok n (notifications.net o)). rewrite Hd in Hok.
      discriminate.
    + destruct (IH {| notifications.net := w;
                      notifications.attempts :=
                        (notifications.attempts o ++ [(n, message)])%list;
                      notifications.stderr := notifications.stderr o |})
        as (lines & Hlines & Hlen & Hnone).
      exists lines. cbn [notifications.stderr] in Hlines.
      split; [exact Hlines|]. split; [simpl; lia | exact Hnone].
Qed.

(** X21. [Send] only adds to the error output, at most one line per
    channel, and nothing at all when every channel delivers. *)
Theorem X21_Send_reports_at_most_one_line_per_channel
        (nm : notifications.NotificationManager) (message : string)
        (o : notifications.Outbox) :
  exists lines,
    notifications.stderr (snd (notifications.Send nm message o))
    = (notifications.stderr o ++ lines)%list
    /\ (List.length lines <= List.length (notifications.notifiers nm))%nat
    /\ ((forall n w, fst (notifications.deliver n message w) = None) -> lines = []).
Proof. unfold notifications.Send. cbn [snd]. apply sendEach_stderr. Qed.


End ChannelFacts.

Section StubFacts.

(** X22. With the channel implementations that stand next to the
    manager, none of which is implemented, [Send] prints one line for
    every channel, in order, naming the channel, and still returns nil. *)
Theorem X22_Send_over_unimplemented_channels
        (nm : notifications.NotificationManager) (message : string)
        (o : notifications.Outbox (TR := sim.Stubs)) :
  notifications.Send nm message o
  = (None,
     {| notifications.net := notifications.net o;
        notifications.attempts :=
          (notifications.attempts o
           ++ map (fun n => (n, message)) (notifications.notifiers nm))%list;
        notifications.stderr :=
          (notifications.stderr o
           ++ map (fun n => ("Failed to send notification: "
                             ++ Go.Error (notifications.notImplemented n)
                             ++ notifications.newline)%string)
                  (notifications.notifiers nm))%list |}).
Proof.
  unfold notifications.Send. f_equal. revert o.
  induction (notifications.notifiers nm) as [|n ns IH]; intros o.
  - simpl. rewrite !app_nil_r. now destruct o.
  - cbn [notifications.sendEach notifications.Notifier_Send notifications.deliver
         sim.Stubs map].
    rewrite IH. cbn [notifications.Fprintf_Stderr notifications.net
                     notifications.attempts notifications.stderr].
    now rewrite <- !app_assoc.
Qed.

End StubFacts.

(** ** Command line *)

Section CliFacts.
Context {RT : Runtime} {PR : providers.Registry}.


(** X23. [trackOnce] for an id that is not in the table of items returns
    "item not found" with the id, before any provider is looked up: the
    tables and the world are untouched. *)
Theorem X23_trackOnce_unknown_item
        (c : cli.CLI) (itemID : string) (noCache respectCache : bool)
        (st : items.Store) :
  itemID <> "" ->
  items.handleFault st = None ->
  find (items.hasID itemID) (items.table st) = None ->
  fst (cli.trackOnce c itemID noCache respectCache st)
  = Go.Err (Go.errorString ("item not found: " ++ itemID))
  /\ items.table (snd (cli.trackOnce c itemID noCache respectCache st)) = items.table st
  /\ db (items.session (snd (cli.trackOnce c itemID noCache respectCache st)))
     = db (items.session st)
  /\ world (items.session (snd (cli.trackOnce c itemID noCache respectCache st)))
     = world (items.session st).
Proof.
  intros Hid Hfault Hfind. unfold cli.trackOnce, items.onSession.
  rewrite Log_run.
  destruct (String.eqb itemID "") eqn:Hempty;
    [apply String.eqb_eq in Hempty; contradiction|].
  cbn [negb]. unfold items.GetItem, items.handleFault in *.
  cbn [items.session items.table]. rewrite logged_db, Hfault, Hfind.
  cbn [fst snd items.table items.session].
  rewrite logged_db, logged_world. auto.
Qed.


Lemma substring_length (n : nat) (s : string) :
  (n <= String.length s)%nat -> String.length (String.substring 0 n s) = n.
Proof.
  revert s. induction n as [|n IH]; intros s Hn.
  - now destruct s.
  - destruct s as [|a s]; simpl in *; [lia|]. rewrite IH; lia.
Qed.

Lemma append_length (s1 s2 : string) :
  String.length (s1 ++ s2) = (String.length s1 + String.length s2)%nat.
Proof. induction s1 as [|a s1 IH]; simpl; [reflexivity | now rewrite IH]. Qed.

Lemma substring_prefix (n : nat) (s : string) :
  String.prefix (String.substring 0 n s) s = true.
Proof.
  revert s. induction n as [|n IH]; intros s.
  - now destruct s.
  - destruct s as [|a s]; simpl; [reflexivity|].
    destruct (Ascii.ascii_dec a a); [apply IH | contradiction].
Qed.

(** X25. [truncateString] returns a string that fits when [maxLen] is at
    least 3: the string itself when it is short enough, and otherwise its
    first [maxLen - 3] bytes followed by three dots, [maxLen] bytes in
    all.  For a smaller [maxLen] and a string that does not fit the slice
    expression panics. *)
Theorem X25_truncateString_fits (s : string) (maxLen : Z) :
  (3 <= maxLen ->
   exists r,
     cli.truncateString s maxLen = Some r
     /\ Z.of_nat (String.length r) <= maxLen
     /\ (Z.of_nat (String.length s) <= maxLen -> r = s)
     /\ (maxLen < Z.of_nat (String.length s) ->
         Z.of_nat (String.length r) = maxLen
         /\ exists head, r = (head ++ "...")%string /\ String.prefix head s = true))
  /\ (maxLen < 3 -> maxLen < Z.of_nat (String.length s) ->
      cli.truncateString s maxLen = None).
Proof.
  unfold cli.truncateString. split.
  - intros Hmax. destruct (Z.of_nat (String.length s) <=? maxLen) eqn:Hfits.
    + apply Z.leb_le in Hfits. exists s.
      split; [reflexivity|]. split; [exact Hfits|]. split; [reflexivity|]. lia.
    + apply Z.leb_gt in Hfits.
      destruct (maxLen - 3 <? 0) eqn:Hneg; [apply Z.ltb_lt in Hneg; lia|].
      eexists. split; [reflexivity|].
      rewrite append_length, substring_length by lia. simpl.
      split; [lia|]. split; [lia|]. intros _. split; [lia|].
      eexists. split; [reflexivity | apply substring_prefix].
  - intros Hsmall Hlong.
    destruct (Z.of_nat (String.length s) <=? maxLen) eqn:Hfits;
      [apply Z.leb_le in Hfits; lia|].
    destruct (maxLen - 3 <? 0) eqn:Hneg; [reflexivity | apply Z.ltb_ge in Hneg; lia].
Qed.

End CliFacts.

(** ** The order of float64 *)

Section FloatOrder.

Lemma SFltb_trans (x y z : spec_float) :
  SFltb x y = true -> SFltb y z = true -> SFltb x z = true.
Proof.
  unfold SFltb.
  destruct x as [sx|sx| |sx mx ex], y as [sy|sy| |sy my ey], z as [sz|sz| |sz mz ez];
    simpl; try discriminate; try reflexivity;
    repeat match goal with
           | s : bool |- _ => destruct s
           end; simpl; try discriminate; try reflexivity.
  all: change (PosDef.Pos.compare_cont Eq) with Pos.compare.
  all: destruct (Z.compare_spec ex ey), (Z.compare_spec ey ez), (Z.compare_spec ex ez);
    subst; try lia; simpl; try discriminate; try reflexivity.
  all: destruct (Pos.compare_spec mx my), (Pos.compare_spec my mz),
         (Pos.compare_spec mx mz);
    subst; try lia; simpl; try discriminate; try reflexivity.
Qed.

Lemma SFleb_trans (x y z : spec_float) :
  SFleb x y = true -> SFleb y z = true -> SFleb x z = true.
Proof.
  unfold SFleb.
  destruct x as [sx|sx| |sx mx ex], y as [sy|sy| |sy my ey], z as [sz|sz| |sz mz ez];
    simpl; try discriminate; try reflexivity;
    repeat match goal with
           | s : bool |- _ => destruct s
           end; simpl; try discriminate; try reflexivity.
  all: change (PosDef.Pos.compare_cont Eq) with Pos.compare.
  all: destruct (Z.compare_spec ex ey), (Z.compare_spec ey ez), (Z.compare_spec ex ez);
    subst; try lia; simpl; try discriminate; try reflexivity.
  all: destruct (Pos.compare_spec mx my), (Pos.compare_spec my mz),
         (Pos.compare_spec mx mz);
    subst; try lia; simpl; try discriminate; try reflexivity.
Qed.

Lemma SFcompare_refl (x : spec_float) : x <> S754_nan -> SFcompare x x = Some Eq.
Proof.
  destruct x as [s|s| |s m e]; simpl; intros Hx; try contradiction;
    try (destruct s; reflexivity).
  change (PosDef.Pos.compare_cont Eq) with Pos.compare.
  rewrite Z.compare_refl, Pos.compare_refl. now destruct s.
Qed.

Lemma SFcompare_flip (x y : spec_float) :
  SFcompare x y = Some Gt -> SFcompare y x = Some Lt.
Proof.
  destruct x as [sx|sx| |sx mx ex], y as [sy|sy| |sy my ey];
    simpl; try discriminate;
    repeat match goal with
           | s : bool |- _ => destruct s
           end; simpl; try discriminate; try reflexivity.
  all: change (PosDef.Pos.compare_cont Eq) with Pos.compare.
  all: rewrite (Z.compare_antisym ex ey), (Pos.compare_antisym mx my).
  all: destruct (ex ?= ey); simpl; try discriminate; try reflexivity.
  all: destruct (mx ?= my)%positive; simpl; try discriminate; reflexivity.
Qed.

Lemma SFcompare_number (x y : spec_float) :
  x <> S754_nan -> y <> S754_nan -> exists c, SFcompare x y = Some c.
Proof.
  destruct x as [sx|sx| |sx mx ex], y as [sy|sy| |sy my ey];
    simpl; intros Hx Hy; try contradiction; eauto.
Qed.

Lemma number_spec (x : float) : PrimFloat.is_nan x = false -> Prim2SF x <> S754_nan.
Proof.
  unfold PrimFloat.is_nan. rewrite eqb_spec. intros Hx Hnan. rewrite Hnan in Hx.
  discriminate.
Qed.

Lemma ltb_trans (x y z : float) :
  (x <? y)%float = true -> (y <? z)%float = true -> (x <? z)%float = true.
Proof. rewrite !ltb_spec. apply SFltb_trans. Qed.

Lemma ltb_irrefl (x : float) : (x <? x)%float = false.
Proof.
  rewrite ltb_spec. unfold SFltb.
  destruct (Prim2SF x) as [s|s| |s m e] eqn:Hx; try reflexivity;
    rewrite SFcompare_refl by discriminate; reflexivity.
Qed.

Lemma leb_trans (x y z : float) :
  (x <=? y)%float = true -> (y <=? z)%float = true -> (x <=? z)%float = true.
Proof. rewrite !leb_spec. apply SFleb_trans. Qed.

Lemma leb_refl (x : float) : PrimFloat.is_nan x = false -> (x <=? x)%float = true.
Proof.
  intros Hx. rewrite leb_spec. unfold SFleb.
  now rewrite SFcompare_refl by now apply number_spec.
Qed.

Lemma ltb_leb (x y : float) : (x <? y)%float = true -> (x <=? y)%float = true.
Proof.
  rewrite ltb_spec, leb_spec. unfold SFltb, SFleb.
  destruct (SFcompare (Prim2SF x) (Prim2SF y)) as [[| |]|]; auto.
Qed.

(** For two numbers, "not greater" is "less than or equal". *)
Lemma not_ltb_leb (x y : float) :
  PrimFloat.is_nan x = false -> PrimFloat.is_nan y = false ->
  (y <? x)%float = false -> (x <=? y)%float = true.
Proof.
  intros Hx Hy. rewrite ltb_spec, leb_spec. unfold SFltb, SFleb.
  apply number_spec in Hx. apply number_spec in Hy.
  destruct (SFcompare_number _ _ Hx Hy) as (c & Hc). rewrite Hc.
  destruct c; try reflexivity.
  apply SFcompare_flip in Hc. rewrite Hc. discriminate.
Qed.

End FloatOrder.

(** ** Price statistics *)

Section StatisticsFacts.

Lemma scanMinMax_bounds (rest : list float) :
  forall (min max : float) (seen : list float),
    In min seen -> In max seen ->
    (forall x, In x seen -> (x <? min)%float = false /\ (max <? x)%float = false) ->
    In (fst (utils.scanMinMax min max rest)) (seen ++ rest)
    /\ In (snd (utils.scanMinMax min max rest)) (seen ++ rest)
    /\ forall x, In x (seen ++ rest) ->
                 (x <? fst (utils.scanMinMax min max rest))%float = false
                 /\ (snd (utils.scanMinMax min max rest) <? x)%float = false.
Proof.
  induction rest as [|price rest IH]; intros min max seen Hmin Hmax Hbound.
  - simpl. rewrite app_nil_r. auto.
  - cbn [utils.scanMinMax].
    replace (seen ++ price :: rest)%list with ((seen ++ [price]) ++ rest)%list
      by now rewrite <- app_assoc.
    apply IH.
    + destruct (price <? min)%float; apply in_or_app; [right; now left | now left].
    + destruct (max <? price)%float; apply in_or_app; [right; now left | now left].
    + intros x Hx. apply in_app_or in Hx. destruct Hx as [Hx | [<- | []]].
      * destruct (Hbound x Hx) as [Hlo Hhi]. split.
        -- destruct (price <? min)%float eqn:Hp; [|exact Hlo].
           destruct (x <? price)%float eqn:Hxp; [|reflexivity].
           now rewrite (ltb_trans _ _ _ Hxp Hp) in Hlo.
        -- destruct (max <? price)%float eqn:Hp; [|exact Hhi].
           destruct (price <? x)%float eqn:Hpx; [|reflexivity].
           now rewrite (ltb_trans _ _ _ Hp Hpx) in Hhi.
      * split.
        -- destruct (price <? min)%float eqn:Hp; [apply ltb_irrefl | exact Hp].
        -- destruct (max <? price)%float eqn:Hp; [apply ltb_irrefl | exact Hp].
Qed.

(** X26. For prices that are not empty [findMinMax] returns two of the
    prices, no price is less than the first and no price greater than the
    second; for no prices it returns [(0, 0)]. *)
Theorem X26_findMinMax_bounds (prices : list float) :
  prices <> [] ->
  In (fst (utils.findMinMax prices)) prices
  /\ In (snd (utils.findMinMax prices)) prices
  /\ (forall x, In x prices ->
                (x <? fst (utils.findMinMax prices))%float = false
                /\ (snd (utils.findMinMax prices) <? x)%float = false)
  /\ utils.findMinMax [] = (0%float, 0%float).
Proof.
  intros Hne. destruct prices as [|first rest]; [contradiction|].
  cbn [utils.findMinMax].
  destruct (scanMinMax_bounds rest first first [first]) as (Hmin & Hmax & Hall).
  - now left.
  - now left.
  - intros x [<- | []]. split; apply ltb_irrefl.
  - simpl in Hmin, Hmax, Hall. repeat split; auto; now apply Hall.
Qed.

(** X27. [CalculateMovingAverage] returns nothing for a window that is
    not positive or longer than the prices, and otherwise one average for
    every position of the window, [len - window + 1] in all; a window as
    long as the prices gives the single average that [CalculateStats]
    reports. *)
Theorem X27_CalculateMovingAverage_length (prices : list float) (window : Z) :
  (window <= 0 \/ Z.of_nat (List.length prices) < window ->
   utils.CalculateMovingAverage prices window = [])
  /\ (0 < window <= Z.of_nat (List.length prices) ->
      Z.of_nat (List.length (utils.CalculateMovingAverage prices window))
      = Z.of_nat (List.length prices) - window + 1)
  /\ (prices <> [] ->
      utils.CalculateMovingAverage prices (Z.of_nat (List.length prices))
      = [snd (fst (utils.CalculateStats prices))]).
Proof.
  unfold utils.CalculateMovingAverage. split; [|split].
  - intros Hout.
    destruct (Z.of_nat (List.length prices) <? window) eqn:Hlong; [reflexivity|].
    destruct (window <=? 0) eqn:Hneg; [reflexivity|].
    apply Z.ltb_ge in Hlong. apply Z.leb_gt in Hneg. lia.
  - intros Hin.
    destruct (Z.of_nat (List.length prices) <? window) eqn:Hlong;
      [apply Z.ltb_lt in Hlong; lia|].
    destruct (window <=? 0) eqn:Hneg; [apply Z.leb_le in Hneg; lia|].
    cbn [orb]. rewrite length_map, length_seq. lia.
  - intros Hne. destruct prices as [|first rest]; [contradiction|].
    set (prices := first :: rest).
    assert (Hlen : (0 < List.length prices)%nat) by (simpl; lia).
    rewrite Z.ltb_irrefl.
    destruct (Z.of_nat (List.length prices) <=? 0) eqn:Hneg;
      [apply Z.leb_le in Hneg; lia|].
    cbn [orb]. rewrite Nat2Z.id.
    replace (List.length prices - List.length prices + 1)%nat with 1%nat by lia.
    cbn [seq map skipn]. rewrite firstn_all.
    unfold utils.CalculateStats, prices.
    destruct (utils.findMinMax (first :: rest)). reflexivity.
Qed.

Lemma bubblePass_perm (k : nat) :
  forall l, Permutation (utils.bubblePass k l) l.
Proof.
  induction k as [|k IH]; intros l.
  - destruct l; apply Permutation_refl.
  - destruct l as [|a [|b rest]]; cbn [utils.bubblePass]; try apply Permutation_refl.
    destruct (b <? a)%float.
    + eapply Permutation_trans; [apply perm_skip, IH | apply perm_swap].
    + apply perm_skip, IH.
Qed.

Lemma bubbleLoop_perm (passes : nat) :
  forall l, Permutation (utils.bubbleLoop passes l) l.
Proof.
  induction passes as [|p IH]; intros l; cbn [utils.bubbleLoop].
  - apply Permutation_refl.
  - eapply Permutation_trans; [apply IH | apply bubblePass_perm].
Qed.

(** One pass over the first [k + 1] elements moves a greatest one of
    them behind the others and leaves the rest of the slice alone. *)
Lemma bubblePass_max (k : nat) :
  forall front back,
    List.length front = S k ->
    Forall (fun x => PrimFloat.is_nan x = false) front ->
    exists front' top,
      utils.bubblePass k (front ++ back) = (front' ++ top :: back)%list
      /\ Permutation (front' ++ [top]) front
      /\ forall x, In x front -> (x <=? top)%float = true.
Proof.
  induction k as [|k IH]; intros front back Hlen Hnum.
  - destruct front as [|a [|b rest]]; try discriminate.
    exists [], a. split; [reflexivity|]. split; [apply Permutation_refl|].
    intros x [<- | []]. inversion Hnum. now apply leb_refl.
  - destruct front as [|a [|b rest]]; try discriminate.
    inversion Hnum as [|? ? Ha Hrest]; subst.
    inversion Hrest as [|? ? Hb Hrest']; subst.
    cbn [utils.bubblePass app].
    destruct (b <? a)%float eqn:Hba.
    + destruct (IH (a :: rest) back) as (front' & top & Hpass & Hperm & Htop).
      * simpl in *. lia.
      * now constructor.
      * exists (b :: front'), top. simpl in Hpass. rewrite Hpass.
        split; [reflexivity|]. split.
        -- simpl. eapply Permutation_trans; [apply perm_skip, Hperm | apply perm_swap].
        -- intros x [<- | [<- | Hx]].
           ++ apply Htop. now left.
           ++ apply leb_trans with a; [now apply ltb_leb | apply Htop; now left].
           ++ apply Htop. now right.
    + destruct (IH (b :: rest) back) as (front' & top & Hpass & Hperm & Htop).
      * simpl in *. lia.
      * now constructor.
      * exists (a :: front'), top. simpl in Hpass. rewrite Hpass.
        split; [reflexivity|]. split.
        -- simpl. apply perm_skip, Hperm.
        -- intros x [<- | [<- | Hx]].
           ++ apply leb_trans with b; [now apply not_ltb_leb | apply Htop; now left].
           ++ apply Htop. now left.
           ++ apply Htop. now right.
Qed.

Lemma bubbleLoop_sorted (passes : nat) :
  forall front back,
    List.length front = S passes ->
    Forall (fun x => PrimFloat.is_nan x = false) front ->
    StronglySorted (fun a b => (a <=? b)%float = true) back ->
    (forall x y, In x front -> In y back -> (x <=? y)%float = true) ->
    StronglySorted (fun a b => (a <=? b)%float = true)
      (utils.bubbleLoop passes (front ++ back)).
Proof.
  induction passes as [|p IH]; intros front back Hlen Hnum Hback Hcross.
  - destruct front as [|a [|b rest]]; try discriminate.
    cbn [utils.bubbleLoop app]. constructor; [exact Hback|].
    apply Forall_forall. intros y Hy. apply Hcross; [now left | exact Hy].
  - cbn [utils.bubbleLoop].
    destruct (bubblePass_max (S p) front back Hlen Hnum)
      as (front' & top & Hpass & Hperm & Htop).
    rewrite Hpass.
    assert (Hin : forall x, In x (front' ++ [top]) -> In x front)
      by (intros x; apply Permutation_in, Hperm).
    apply IH.
    + apply Permutation_length in Hperm. rewrite length_app in Hperm.
      simpl in Hperm. lia.
    + apply Forall_forall. intros x Hx. rewrite Forall_forall in Hnum.
      apply Hnum, Hin, in_or_app. now left.
    + constructor; [exact Hback|]. apply Forall_forall. intros y Hy.
      apply Hcross; [|exact Hy]. apply Hin, in_or_app. right. now left.
    + intros x y Hx [<- | Hy].
      * apply Htop, Hin, in_or_app. now left.
      * apply Hcross; [|exact Hy]. apply Hin, in_or_app. now left.
Qed.

(** X28. The bubble sort of [CalculateStats] rearranges the prices
    without losing or inventing one, and for prices without NaN its
    result is in ascending order, so that the median reported is taken
    from the middle of the sorted prices. *)
Theorem X28_CalculateStats_median_of_sorted_prices (prices : list float) :
  prices <> [] ->
  Permutation (utils.bubbleSort prices) prices
  /\ (Forall (fun x => PrimFloat.is_nan x = false) prices ->
      StronglySorted (fun a b => (a <=? b)%float = true) (utils.bubbleSort prices))
  /\ snd (utils.CalculateStats prices) = utils.median (utils.bubbleSort prices)
  /\ ((List.length prices mod 2 = 1)%nat ->
      In (snd (utils.CalculateStats prices)) prices).
Proof.
  intros Hne.
  assert (Hperm : Permutation (utils.bubbleSort prices) prices)
    by apply bubbleLoop_perm.
  assert (Hmedian : snd (utils.CalculateStats prices)
                    = utils.median (utils.bubbleSort prices)).
  { unfold utils.CalculateStats. destruct prices as [|first rest]; [contradiction|].
    destruct (utils.findMinMax (first :: rest)). reflexivity. }
  split; [exact Hperm|]. split; [|split; [exact Hmedian|]].
  - intros Hnum. unfold utils.bubbleSort.
    destruct prices as [|first rest]; [contradiction|].
    rewrite <- (app_nil_r (first :: rest)) at 2.
    apply bubbleLoop_sorted.
    + simpl. lia.
    + exact Hnum.
    + constructor.
    + intros x y _ [].
  - intros Hodd. rewrite Hmedian. unfold utils.median.
    rewrite (Permutation_length Hperm), Hodd. cbn [Nat.eqb].
    apply (Permutation_in _ Hperm). apply nth_In.
    rewrite (Permutation_length Hperm).
    apply Nat.div_lt; [|lia]. destruct prices; [contradiction | simpl; lia].
Qed.

End StatisticsFacts.

(** ** Import and one-shot tracking *)

Section ImportFacts.
Context {RT : Runtime} {PR : providers.Registry}.




Lemma TrackAll_returns_nil (t : tracker.Tracker) (s : State) :
  fst (tracker.TrackAll t s) = Go.Ok tt.
Proof.
  unfold tracker.TrackAll. unfold bind at 1. rewrite Log_run. unfold bind at 1.
  destruct (trackLoop_run t (config.Items (tracker.config t))
              (logged (tracker.logger t) logger.LevelInfo
                 "Starting price tracking for all items" [] s))
    as (s1 & Hrun & _).
  rewrite Hrun. unfold bind at 1. now rewrite Log_run.
Qed.

(** X30. [trackOnce] without an item id runs [TrackAll] and therefore
    returns nil whatever happens to the single items; it never reads or
    changes the table of items. *)
Theorem X30_trackOnce_without_id_returns_nil
        (c : cli.CLI) (noCache respectCache : bool) (st : items.Store) :
  fst (cli.trackOnce c "" noCache respectCache st) = Go.Ok tt
  /\ items.table (snd (cli.trackOnce c "" noCache respectCache st)) = items.table st
  /\ items.session (snd (cli.trackOnce c "" noCache respectCache st))
     = snd (tracker.TrackAll (cli.trackerOf c)
              (logged (cli.logger c) logger.LevelInfo
                 "Starting one-time price tracking" [] (items.session st))).
Proof.
  unfold cli.trackOnce, items.onSession. rewrite Log_run.
  cbn [String.eqb negb items.session items.table].
  pose proof (TrackAll_returns_nil (cli.trackerOf c)
                (logged (cli.logger c) logger.LevelInfo
                   "Starting one-time price tracking" [] (items.session st))) as Hnil.
  destruct (tracker.TrackAll _ _) as [r s1]. cbn [fst snd] in *. auto.
Qed.

End ImportFacts.

(** * Concrete runs of the further properties *)

Section MoreExamples.

Lemma X1_witness :
  (forall p, In p [sim.sample "ps5" 2 91 "EUR"; sim.sample "ps5" 1 100 "USD"] ->
             storage.ItemID p = "ps5"
             /\ exists r, In r (sqlite.prices (db sim.mixed)) /\ storage.scanRow r = Go.Ok p)
  /\ (0 <= 5 ->
      (List.length [sim.sample "ps5" 2 91 "EUR"; sim.sample "ps5" 1 100 "USD"]
       <= Z.to_nat 5)%nat).
Proof.
  apply (X1_GetPrices_only_stored_samples_of_the_item "ps5" 5 sim.mixed sim.mixed).
  vm_compute. reflexivity.
Defined.




Lemma X5_witness :
  fst (storage.GetPrices "tv" 5
         (snd (storage.SavePrice (RT := sim.RT) "ps5" 91 "USD" None sim.sale)))
  = fst (storage.GetPrices "tv" 5 sim.sale).
Proof.
  apply (X5_SavePrice_leaves_other_histories (RT := sim.RT)
           "ps5" "tv" 91 "USD" None 5 sim.sale).
  - vm_compute. reflexivity.
  - discriminate.
Defined.


Lemma X7_witness :
  NoDup (map items.ID
           (items.table (snd (items.SaveItem (cli.toItem sim.ps5) catalog.stocked))))
  /\ (forall other, other <> "ps5" ->
        fst (items.GetItem other (snd (items.SaveItem (cli.toItem sim.ps5) catalog.stocked)))
        = fst (items.GetItem other catalog.stocked))
  /\ items.session (snd (items.SaveItem (cli.toItem sim.ps5) catalog.stocked))
     = items.session catalog.stocked.
Proof.
  apply (X7_SaveItem_replaces_by_id (cli.toItem sim.ps5) catalog.stocked).
  - vm_compute. reflexivity.
  - vm_compute. constructor.
    + intros [H | []]. discriminate.
    + constructor; [intros [] | constructor].
Defined.

Lemma X8_witness :
  fst (items.GetItem "ps5" (snd (items.DeleteItem "ps5" catalog.stocked))) = Go.Ok None
  /\ fst (storage.GetPrices "ps5" 5
            (items.session (snd (items.DeleteItem "ps5" catalog.stocked)))) = Go.Ok [].
Proof.
  destruct (X8_DeleteItem_removes_item_and_history "ps5" 5 catalog.stocked
              (snd (items.DeleteItem "ps5" catalog.stocked)))
    as (Hitem & Hprices & _).
  - vm_compute. reflexivity.
  - split; [exact Hitem | exact Hprices].
Defined.


Lemma X11_witness :
  db (snd (tracker.TrackItem (sim.trackerOf [sim.ps5]) sim.ps5 catalog.closed))
  = db catalog.closed
  /\ alerts.fires "Price tracked" catalog.closed
       (snd (tracker.TrackItem (sim.trackerOf [sim.ps5]) sim.ps5 catalog.closed)) = false.
Proof.
  destruct (X11_TrackItem_failure_writes_nothing
              (sim.trackerOf [sim.ps5]) sim.ps5 catalog.closed
              (snd (tracker.TrackItem (sim.trackerOf [sim.ps5]) sim.ps5 catalog.closed))
              (Go.wrapError "failed to save price"
                 (Go.wrapError "failed to save price"
                    (Go.errorString "sql: database is closed"))))
    as (Hdb & Hlog & _).
  - vm_compute. reflexivity.
  - split; [exact Hdb | exact Hlog].
Defined.

Lemma X12_witness :
  fst (storage.GetPrices "tv" 5
         (snd (tracker.TrackItem (sim.trackerOf [sim.ps5]) sim.ps5 sim.sale)))
  = fst (storage.GetPrices "tv" 5 sim.sale).
Proof.
  apply (X12_TrackItem_leaves_other_histories (sim.trackerOf [sim.ps5]) sim.ps5 "tv" 5).
  discriminate.
Defined.

Lemma X14_witness :
  fst (tracker.checkItemAlerts (sim.trackerOf [sim.ps5]) sim.ps5 sim.single) = Go.Ok tt
  /\ alerts.emitted sim.single
       (snd (tracker.checkItemAlerts (sim.trackerOf [sim.ps5]) sim.ps5 sim.single)) = [].
Proof.
  apply (X14_no_rule_without_two_samples (sim.trackerOf [sim.ps5]) sim.ps5 sim.single
           [sim.sample "ps5" 1 50 "USD"]).
  - vm_compute. reflexivity.
  - simpl. lia.
Defined.

Lemma X15_witness :
  alerts.fires alerts.target_reached sim.drop9
    (snd (tracker.checkItemAlerts (sim.trackerOf [sim.ps5]) sim.ps5 sim.drop9)) = true
  <-> exists target,
        config.TargetPrice sim.ps5 = Some target /\ (91 <=? target)%float = true.
Proof.
  apply (X15_target_rule_inclusive (sim.trackerOf [sim.ps5]) sim.ps5 sim.drop9
           (sim.sample "ps5" 2 91 "USD") (sim.sample "ps5" 1 100 "USD") []).
  vm_compute. reflexivity.
Defined.

Lemma X16_witness :
  map logger.msg
    (alerts.emitted sim.drop9
       (snd (tracker.checkItemAlerts (sim.trackerOf [sim.ps5]) sim.ps5 sim.drop9)))
  = ((if alerts.fires alerts.target_reached sim.drop9
           (snd (tracker.checkItemAlerts (sim.trackerOf [sim.ps5]) sim.ps5 sim.drop9))
      then [alerts.target_reached] else [])
     ++ (if alerts.fires alerts.percent_drop sim.drop9
              (snd (tracker.checkItemAlerts (sim.trackerOf [sim.ps5]) sim.ps5 sim.drop9))
         then [alerts.percent_drop] else []))%list.
Proof.
  apply (X16_alerts_are_independent (sim.trackerOf [sim.ps5]) sim.ps5 sim.drop9
           (sim.sample "ps5" 2 91 "USD") (sim.sample "ps5" 1 100 "USD") []).
  vm_compute. reflexivity.
Defined.


Lemma X23_witness :
  fst (cli.trackOnce (catalog.cliOf []) "radio" false false catalog.stocked)
  = Go.Err (Go.errorString "item not found: radio")
  /\ items.table (snd (cli.trackOnce (catalog.cliOf []) "radio" false false catalog.stocked))
     = items.table catalog.stocked.
Proof.
  destruct (X23_trackOnce_unknown_item (catalog.cliOf []) "radio" false false
              catalog.stocked) as (Herr & Htable & _).
  - discriminate.
  - reflexivity.
  - reflexivity.
  - split; [exact Herr | exact Htable].
Defined.


Lemma X26_witness :
  In (fst (utils.findMinMax catalog.week)) catalog.week
  /\ fst (utils.findMinMax catalog.week) = 97%float
  /\ snd (utils.findMinMax catalog.week) = 104%float.
Proof.
  destruct (X26_findMinMax_bounds catalog.week) as (Hmin & _).
  - discriminate.
  - split; [exact Hmin|]. split; vm_compute; reflexivity.
Defined.

Lemma X28_witness :
  Permutation (utils.bubbleSort catalog.week) catalog.week
  /\ utils.bubbleSort catalog.week = [97; 99; 101; 103; 104]%float
  /\ snd (utils.CalculateStats catalog.week) = 101%float.
Proof.
  destruct (X28_CalculateStats_median_of_sorted_prices catalog.week) as (Hperm & _).
  - discriminate.
  - split; [exact Hperm|]. split; vm_compute; reflexivity.
Defined.


End MoreExamples.
